(** * Grain workspace export: a shallow embedding of [grain_api_wrapper.py]

    The script lists the recordings of a workspace page by page, fetches
    each recording that is not yet on disk, writes it as a JSON artifact
    below [recordings/YYYY/MM/DD/] and keeps a checkpoint file
    [.cursor_state.json] with the pagination cursor.

    Conventions of the embedding.
    - A Python [str] is a [string]; a character stands for the code point
      of the same number (U+0000 to U+00FF), and the character classes of
      [str.isalnum], [str.isspace] and [str.lower] are written out for that
      range.  The sanitizer of titles is also given on lists of code
      points, for titles beyond that range.
    - A value decoded from JSON is a [json]; [JNull] is Python's [None].
      Numbers are integers.
    - Code that can raise returns an [outcome]; the file system and the
      output stream are an explicit [world], threaded through a reader,
      state and exception monad [M].
    - The remote API, the environment variable, the clock, the operator's
      answer and the refusals of the operating system are an [env] of
      oracles; so are [datetime.fromisoformat] and Python's [repr] of lists
      and dicts.
    - The [while True] of [process_all_recordings] runs on fuel; a loop
      that runs out of it ends in [Timeout], which no handler catches. *)

From Stdlib Require Import String Ascii ZArith NArith List Lia Bool.
From stdpp Require Import base gmap strings pretty list.

Set Warnings "-register-all".
Open Scope string_scope.

(** ** Python's [str] methods used by the script *)

Module PyStr.

Definition code (c : ascii) : N := N_of_ascii c.

Definition between (lo hi : N) (c : ascii) : bool :=
  ((lo <=? code c) && (code c <=? hi))%N.

Definition is_code (n : N) (c : ascii) : bool := (code c =? n)%N.

(** [A-Za-z0-9] *)
Definition ascii_alnum (c : ascii) : bool :=
  between 48 57 c || between 65 90 c || between 97 122 c.

(** The alphanumeric code points of U+0080..U+00FF: letters, the
    superscript digits and the vulgar fractions. *)
Definition latin1_alnum (c : ascii) : bool :=
  is_code 170 c || is_code 181 c || is_code 186 c
  || between 178 179 c || is_code 185 c || between 188 190 c
  || between 192 214 c || between 216 246 c || between 248 255 c.

(** [c.isalnum()] for a one-character string *)
Definition isalnum (c : ascii) : bool := ascii_alnum c || latin1_alnum c.

(** [c.isspace()] for a one-character string *)
Definition isspace (c : ascii) : bool :=
  between 9 13 c || between 28 32 c || is_code 133 c || is_code 160 c.

(** [c.lower()] for a one-character string *)
Definition lower_char (c : ascii) : ascii :=
  if between 65 90 c || between 192 214 c || between 216 222 c
  then ascii_of_N (code c + 32) else c.

Fixpoint all (f : ascii → bool) (s : string) : bool :=
  match s with
  | EmptyString => true
  | String c s' => f c && all f s'
  end.

(** [s.isalnum()]: every character is alphanumeric and there is one *)
Definition str_isalnum (s : string) : bool :=
  match s with
  | EmptyString => false
  | _ => all isalnum s
  end.

Fixpoint lower (s : string) : string :=
  match s with
  | EmptyString => EmptyString
  | String c s' => String (lower_char c) (lower s')
  end.

Fixpoint lstrip (s : string) : string :=
  match s with
  | EmptyString => EmptyString
  | String c s' => if isspace c then lstrip s' else s
  end.

Fixpoint rstrip (s : string) : string :=
  match s with
  | EmptyString => EmptyString
  | String c s' =>
      match rstrip s' with
      | EmptyString => if isspace c then EmptyString else String c EmptyString
      | r => String c r
      end
  end.

Definition strip (s : string) : string := lstrip (rstrip s).

(** [s[:n]] *)
Fixpoint take (n : nat) (s : string) : string :=
  match n, s with
  | S n', String c s' => String c (take n' s')
  | _, _ => EmptyString
  end.

(** [s.replace(c, by)] for a one-character pattern [c] *)
Fixpoint replace (c : ascii) (by_ : string) (s : string) : string :=
  match s with
  | EmptyString => EmptyString
  | String d s' =>
      if Ascii.eqb d c then by_ ++ replace c by_ s'
      else String d (replace c by_ s')
  end.

(** the characters of a string, each as a one-character string *)
Fixpoint chars (s : string) : list string :=
  match s with
  | EmptyString => []
  | String c s' => String c EmptyString :: chars s'
  end.

(** ["".join(l)] *)
Fixpoint concat (l : list string) : string :=
  match l with
  | [] => EmptyString
  | x :: l' => x ++ concat l'
  end.

Fixpoint last_char (s : string) : option ascii :=
  match s with
  | EmptyString => None
  | String c EmptyString => Some c
  | String _ s' => last_char s'
  end.

Definition startswith (s p : string) : bool := String.prefix p s.

Definition endswith_char (s : string) (c : ascii) : bool :=
  match last_char s with
  | Some d => Ascii.eqb d c
  | None => false
  end.

Fixpoint contains_char (c : ascii) (s : string) : bool :=
  match s with
  | EmptyString => false
  | String d s' => Ascii.eqb d c || contains_char c s'
  end.

(** [s = p ++ r] gives [Some r] *)
Fixpoint strip_prefix (p s : string) : option string :=
  match p, s with
  | EmptyString, _ => Some s
  | String a p', String b s' =>
      if Ascii.eqb a b then strip_prefix p' s' else None
  | String _ _, EmptyString => None
  end.

End PyStr.

(** ** [os.path.join] (posixpath) *)

Definition join2 (path b : string) : string :=
  if PyStr.startswith b "/" then b
  else if (String.eqb path "" || PyStr.endswith_char path "/")%bool
       then path ++ b
       else path ++ "/" ++ b.

Definition join (a : string) (p : list string) : string := fold_left join2 p a.

(** ** Values decoded from JSON *)

Inductive json :=
| JNull
| JBool (b : bool)
| JNum (n : Z)
| JStr (s : string)
| JArr (l : list json)
| JObj (kvs : list (string * json)).

(** The exceptions the script can meet; all are subclasses of
    [Exception].  [HTTPError 404] is the spec's NotFoundError;
    [ConnectionError] and the other [HTTPError]s are its TransportError. *)
Inductive exn :=
| KeyError (k : string)
| TypeError
| AttributeError
| ValueError
| JSONDecodeError
| OSError
| HTTPError (status : nat)
| ConnectionError.

Inductive outcome (A : Type) :=
| Ok (a : A)
| Raise (e : exn)
| Timeout.
Arguments Ok {A} a.
Arguments Raise {A} e.
Arguments Timeout {A}.

(** [bool(v)] *)
Definition truthy (v : json) : bool :=
  match v with
  | JNull => false
  | JBool b => b
  | JNum n => negb (n =? 0)%Z
  | JStr s => negb (String.eqb s "")
  | JArr l => match l with [] => false | _ => true end
  | JObj kvs => match kvs with [] => false | _ => true end
  end.

Fixpoint assoc (k : string) (kvs : list (string * json)) : option json :=
  match kvs with
  | [] => None
  | (k', v) :: rest => if String.eqb k' k then Some v else assoc k rest
  end.

(** [d.get(k, default)] *)
Definition py_get (d : json) (k : string) (default : json) : outcome json :=
  match d with
  | JObj kvs => Ok (match assoc k kvs with Some v => v | None => default end)
  | _ => Raise AttributeError
  end.

(** [d[k]] for a string key [k] *)
Definition py_getitem (d : json) (k : string) : outcome json :=
  match d with
  | JObj kvs => match assoc k kvs with Some v => Ok v | None => Raise (KeyError k) end
  | _ => Raise TypeError
  end.

(** [len(v)] *)
Definition py_len (v : json) : outcome Z :=
  match v with
  | JStr s => Ok (Z.of_nat (String.length s))
  | JArr l => Ok (Z.of_nat (length l))
  | JObj kvs => Ok (Z.of_nat (length kvs))
  | _ => Raise TypeError
  end.

(** the items produced by [for x in v] *)
Definition py_iter (v : json) : outcome (list json) :=
  match v with
  | JStr s => Ok (map JStr (PyStr.chars s))
  | JArr l => Ok l
  | JObj kvs => Ok (map (λ kv, JStr (fst kv)) kvs)
  | _ => Raise TypeError
  end.

(** [v + i] for an integer [i] *)
Definition py_add_int (v : json) (i : Z) : outcome Z :=
  match v with
  | JNum n => Ok (n + i)%Z
  | JBool b => Ok ((if b then 1 else 0) + i)%Z
  | _ => Raise TypeError
  end.

(** the part of a [datetime] the script reads *)
Record date := Date { year : nat; month : nat; day : nat }.

(** [f"{n:02d}"] *)
Definition pad2 (n : nat) : string :=
  if (n <? 10)%nat then "0" ++ pretty n else pretty n.

(** ** The world the script runs in *)

(** What a file holds: the serialization of a JSON value, or text that
    [json.load] rejects. *)
Inductive content :=
| Json (v : json)
| Garbage.

(** One constructor per [print] call of the script (with the values it
    interpolates), and one for [time.sleep] (in milliseconds). *)
Inductive event :=
| FetchingAll
| FoundSavedState (timestamp : json)
| AlreadyProcessed (count : json)
| Prompt
| FetchingPage (page_num : Z)
| ProcessingPage (n : Z)
| Processing (actual_index : Z) (title : json)
| AlreadyDownloaded (relative_path : string)
| WarningDate (start_datetime_str : json) (e : exn)
| Saved (filepath output_dir : string)
| Error (e : exn)
| SavedCursorState (count : Z)
| ErrorLoadingCursorState (e : exn)
| Completed (total : Z)
| RemovedCursorState
| ErrorDuringProcessing (e : exn)
| ResumeHint
| Sleep (ms : nat).

(** Files by path, the directories, and what was printed so far (oldest
    first).  Paths are the strings the script passes to the system. *)
Record world := World {
  files : gmap string content;
  dirs : gset string;
  log : list event;
}.

Inductive reply :=
| Reply (v : json)
| Fails (e : exn).

(** What the script reads from outside. *)
Record env := Env {
  (** [os.environ.get("GRAIN_API_TOKEN")] *)
  api_token : option string;
  (** the line [input] returns *)
  answer : string;
  (** [GET /recordings], by the cursor parameter ([JNull]: none) *)
  remote_list : json → reply;
  (** [GET /recordings/<id>] with the transcript *)
  remote_get : json → reply;
  (** [datetime.now().isoformat()] *)
  now : string;
  (** the operating system refuses to list, read, create, write or remove
      this path (permissions, a file in the place of a directory, a full
      disk); such a call raises [OSError] and changes nothing *)
  refused : string → bool;
  (** [datetime.fromisoformat]; [None] when it raises [ValueError] *)
  fromisoformat : string → option date;
  (** [str(v)] of a list or dict *)
  repr : json → string;
}.

(** ** The monad: reader of [env], state [world], exceptions *)

Definition M (A : Type) : Type := env → world → outcome A * world.

Definition ret {A} (a : A) : M A := λ _ w, (Ok a, w).

Definition bind {A B} (m : M A) (k : A → M B) : M B :=
  λ E w,
    match m E w with
    | (Ok a, w') => k a E w'
    | (Raise e, w') => (Raise e, w')
    | (Timeout, w') => (Timeout, w')
    end.

Definition raise {A} (e : exn) : M A := λ _ w, (Raise e, w).

Definition timeout {A} : M A := λ _ w, (Timeout, w).

(** [try: m  except Exception as e: h e] *)
Definition try_except {A} (m : M A) (h : exn → M A) : M A :=
  λ E w,
    match m E w with
    | (Raise e, w') => h e E w'
    | r => r
    end.

Definition lift {A} (o : outcome A) : M A := λ _ w, (o, w).

Definition ask : M env := λ E w, (Ok E, w).

Notation "'let*' x ':=' c1 'in' c2" := (bind c1 (λ x, c2))
  (at level 10, x pattern, c1 at level 100, c2 at level 200).

Definition print (ev : event) : M unit :=
  λ _ w, (Ok tt, World (files w) (dirs w) (log w ++ [ev])).

Definition sleep (ms : nat) : M unit := print (Sleep ms).

(** ** The file system *)

Definition path_exists_in (w : world) (p : string) : bool :=
  bool_decide (p ∈ dirs w) || bool_decide (p ∈ dom (files w)).

(** [os.path.exists(p)] *)
Definition path_exists (p : string) : M bool :=
  λ _ w, (Ok (path_exists_in w p), w).

(** the proper ancestors of a path: what stands before each of its [/] *)
Fixpoint ancestors_from (acc s : string) : list string :=
  match s with
  | EmptyString => []
  | String c s' =>
      (if (Ascii.eqb c "/" && negb (String.eqb acc ""))%bool then [acc] else [])
      ++ ancestors_from (acc ++ String c EmptyString) s'
  end.

Definition ancestors (p : string) : list string := ancestors_from "" p.

(** [os.makedirs(p, exist_ok=True)] *)
Definition makedirs (p : string) : M unit :=
  λ E w,
    if refused E p then (Raise OSError, w)
    else (Ok tt, World (files w) (dirs w ∪ list_to_set (p :: ancestors p)) (log w)).

(** the name of [path] when it is an immediate entry of [dir] *)
Definition entry_name (dir path : string) : option string :=
  match PyStr.strip_prefix (dir ++ "/") path with
  | Some name =>
      if (String.eqb name "" || PyStr.contains_char "/" name)%bool then None
      else Some name
  | None => None
  end.

Definition entries (w : world) (dir : string) : list string :=
  omap (entry_name dir) (elements (dirs w ∪ dom (files w))).

(** [os.listdir(p)] *)
Definition listdir (p : string) : M (list string) :=
  λ E w,
    if refused E p then (Raise OSError, w)
    else if bool_decide (p ∈ dirs w) then (Ok (entries w p), w)
    else (Raise OSError, w).

(** [with open(p, "w") as f: json.dump(v, f, ...)].  A refusal of the
    system is a refusal of [open], which then creates nothing and cuts
    nothing; [json.dump] of a [json] value is taken to go through. *)
Definition write_json (p : string) (v : json) : M unit :=
  λ E w,
    if refused E p then (Raise OSError, w)
    else (Ok tt, World (<[p := Json v]> (files w)) (dirs w) (log w)).

(** [with open(p, "r") as f: return json.load(f)] *)
Definition read_json (p : string) : M json :=
  λ E w,
    if refused E p then (Raise OSError, w)
    else match files w !! p with
         | Some (Json v) => (Ok v, w)
         | Some Garbage => (Raise JSONDecodeError, w)
         | None => (Raise OSError, w)
         end.

(** [os.remove(p)] *)
Definition remove (p : string) : M unit :=
  λ E w,
    if refused E p then (Raise OSError, w)
    else match files w !! p with
         | Some _ => (Ok tt, World (delete p (files w)) (dirs w) (log w))
         | None => (Raise OSError, w)
         end.

(** ** The script *)

Definition cursor_state_file : string := ".cursor_state.json".

Definition call (r : reply) : M json :=
  match r with
  | Reply v => ret v
  | Fails e => raise e
  end.

(** [GrainAPIClient.get_recording]: the request, [raise_for_status] and
    the decoding of the body are the oracle's. *)
Definition get_recording (recording_id : json) : M json :=
  let* E := ask in
  call (remote_get E recording_id).

(** [GrainAPIClient.list_recordings]: the cursor parameter is sent only
    when [cursor] is truthy. *)
Definition list_recordings (cursor : json) : M json :=
  let* E := ask in
  call (remote_list E (if truthy cursor then cursor else JNull)).

(** [save_cursor_state] *)
Definition save_cursor_state (cursor : json) (count : Z) : M unit :=
  let* E := ask in
  let state :=
    JObj [("cursor", cursor); ("processed_count", JNum count);
          ("timestamp", JStr (now E))] in
  let* _ := write_json cursor_state_file state in
  print (SavedCursorState count).

(** [load_cursor_state] *)
Definition load_cursor_state : M json :=
  let* present := path_exists cursor_state_file in
  if present then
    try_except
      (read_json cursor_state_file)
      (λ e, let* _ := print (ErrorLoadingCursorState e) in ret JNull)
  else ret JNull.

(** [datetime.fromisoformat(start_datetime_str.replace("Z", "+00:00"))] *)
Definition parse_start_datetime (start_datetime_str : json) : M date :=
  match start_datetime_str with
  | JStr s =>
      let* E := ask in
      match fromisoformat E (PyStr.replace "Z" "+00:00" s) with
      | Some dt => ret dt
      | None => raise ValueError
      end
  | _ => raise AttributeError
  end.

(** [os.path.join(root, str(dt.year), f"{dt.month:02d}", f"{dt.day:02d}")] *)
Definition date_partition (root : string) (dt : date) : string :=
  join root [pretty (year dt); pad2 (month dt); pad2 (day dt)].

(** [c.isalnum() or c in (" ", "-", "_")] *)
Definition safe_item (c : string) : bool :=
  PyStr.str_isalnum c
  || String.eqb c " " || String.eqb c "-" || String.eqb c "_".

(** the items the generator of [save_recording_to_json] keeps; an item
    that is not a [str] has no [isalnum] *)
Fixpoint keep_safe (items : list json) : outcome (list string) :=
  match items with
  | [] => Ok []
  | JStr c :: rest =>
      match keep_safe rest with
      | Ok kept => Ok (if safe_item c then c :: kept else kept)
      | bad => bad
      end
  | _ :: _ => Raise AttributeError
  end.

(** ["".join(c for c in title if ...).rstrip()[:50]] *)
Definition clean_title (title : json) : outcome string :=
  match py_iter title with
  | Ok items =>
      match keep_safe items with
      | Ok kept => Ok (PyStr.take 50 (PyStr.rstrip (PyStr.concat kept)))
      | Raise e => Raise e
      | Timeout => Timeout
      end
  | Raise e => Raise e
  | Timeout => Timeout
  end.

(** [f"{v}"] *)
Definition py_str (E : env) (v : json) : string :=
  match v with
  | JNull => "None"
  | JBool true => "True"
  | JBool false => "False"
  | JNum n => pretty n
  | JStr s => s
  | _ => repr E v
  end.

(** [save_recording_to_json] *)
Definition save_recording_to_json (recording_data : json)
    (output_dir : string) : M string :=
  let* start_datetime_str :=
    lift (py_get recording_data "start_datetime" JNull) in
  let* date_path :=
    if truthy start_datetime_str then
      try_except
        (let* dt := parse_start_datetime start_datetime_str in
         ret (date_partition output_dir dt))
        (λ e,
          let* _ := print (WarningDate start_datetime_str e) in
          ret output_dir)
    else ret output_dir in
  let* _ := makedirs date_path in
  let* recording_id := lift (py_getitem recording_data "id") in
  let* title := lift (py_get recording_data "title" (JStr "Untitled")) in
  let* safe_title := lift (clean_title title) in
  let* E := ask in
  let filename := py_str E recording_id ++ "_" ++ safe_title ++ ".json" in
  let filepath := join date_path [filename] in
  let* id := lift (py_getitem recording_data "id") in
  let* title := lift (py_get recording_data "title" JNull) in
  let* url := lift (py_get recording_data "url" JNull) in
  let* source := lift (py_get recording_data "source" JNull) in
  let* start_datetime := lift (py_get recording_data "start_datetime" JNull) in
  let* participants := lift (py_get recording_data "participants" (JArr [])) in
  let* transcript := lift (py_get recording_data "transcript_json" (JObj [])) in
  let output_data :=
    JObj [("id", id); ("title", title); ("url", url); ("source", source);
          ("start_datetime", start_datetime);
          ("participants", participants); ("transcript", transcript)] in
  let* _ := write_json filepath output_data in
  let* _ := print (Saved filepath output_dir) in
  ret filepath.

(** Lines 279-307 of [process_recording]: the look-up of an earlier
    download in the date directory.  [true] is the early [return]. *)
Definition already_downloaded (recording_id start_datetime_str : json)
    : M bool :=
  let* root_exists := path_exists "recordings" in
  if (truthy start_datetime_str && root_exists)%bool then
    try_except
      (let* dt := parse_start_datetime start_datetime_str in
       let date_path := date_partition "recordings" dt in
       let* dir_exists := path_exists date_path in
       if dir_exists then
         let* listing := listdir date_path in
         let* existing_files :=
           match recording_id with
           | JStr id => ret (List.filter (λ f, PyStr.startswith f id) listing)
           | _ => match listing with [] => ret [] | _ => raise TypeError end
           end in
         match existing_files with
         | f :: _ =>
             let relative_path :=
               join (pretty (year dt)) [pad2 (month dt); pad2 (day dt); f] in
             let* _ := print (AlreadyDownloaded relative_path) in
             ret true
         | [] => ret false
         end
       else ret false)
      (λ _, ret false)
  else ret false.

(** [process_recording], the closure of [main] over [starting_count] *)
Definition process_recording (starting_count : json)
    (recording : json) (index : Z) : M unit :=
  let* actual_index := lift (py_add_int starting_count index) in
  let* title := lift (py_get recording "title" (JStr "Untitled")) in
  let* _ := print (Processing actual_index title) in
  try_except
    (let* recording_id := lift (py_getitem recording "id") in
     let* start_datetime_str :=
       lift (py_get recording "start_datetime" JNull) in
     let* found := already_downloaded recording_id start_datetime_str in
     if found then ret tt
     else
       let* recording_data := get_recording recording_id in
       let* _ := save_recording_to_json recording_data "recordings" in
       sleep 1000)
    (λ e, print (Error e)).

(** ** The pagination loop *)

Inductive control (S : Type) :=
| Break (s : S)
| Continue (s : S).
Arguments Break {S} s.
Arguments Continue {S} s.

(** [while True: body]; [fuel] bounds the number of iterations *)
Fixpoint while_true {S} (fuel : nat) (body : S → M (control S)) (s : S)
    : M S :=
  match fuel with
  | O => timeout
  | Datatypes.S fuel' =>
      let* c := body s in
      match c with
      | Break s' => ret s'
      | Continue s' => while_true fuel' body s'
      end
  end.

(** [for recording in recordings: callback(recording, total + 1); total += 1] *)
Fixpoint for_each (callback : json → Z → M unit) (recordings : list json)
    (total_processed : Z) : M Z :=
  match recordings with
  | [] => ret total_processed
  | recording :: rest =>
      let* _ := callback recording (total_processed + 1)%Z in
      for_each callback rest (total_processed + 1)%Z
  end.

(** The state of the loop: [cursor], [total_processed], [page_num]. *)
Definition loop_state : Type := json * Z * Z.

(** One turn of the [while True] of [process_all_recordings]: every path
    through the body of the source ends in a [break]. *)
Definition page_step (callback : json → Z → M unit) (st : loop_state)
    : M (control loop_state) :=
  let '(cursor, total_processed, page_num) := st in
  let* _ := print (FetchingPage page_num) in
  let* response := list_recordings cursor in
  let* recordings := lift (py_get response "recordings" (JArr [])) in
  if negb (truthy recordings) then ret (Break st)
  else
    let* n := lift (py_len recordings) in
    let* _ := print (ProcessingPage n) in
    let* items := lift (py_iter recordings) in
    let* total_processed := for_each callback items total_processed in
    let* cursor := lift (py_get response "cursor" JNull) in
    if negb (truthy cursor) then ret (Break (cursor, total_processed, page_num))
    else
      let* _ := save_cursor_state cursor total_processed in
      let page_num := (page_num + 1)%Z in
      let* _ := sleep 500 in
      ret (Break (cursor, total_processed, page_num)).

(** [GrainAPIClient.process_all_recordings] *)
Definition process_all_recordings (fuel : nat)
    (callback : json → Z → M unit) (resume_cursor : json) : M Z :=
  let* st := while_true fuel (page_step callback) (resume_cursor, 0%Z, 1%Z) in
  ret (snd (fst st)).

(** [input(...).lower().strip() == "y"] *)
Definition resume_requested : M bool :=
  let* _ := print Prompt in
  let* E := ask in
  ret (String.eqb (PyStr.strip (PyStr.lower (answer E))) "y").

(** Lines 319-333 of [main]: the run itself, the removal of the
    checkpoint after it, and the handler that reports and re-raises. *)
Definition sync_all (fuel : nat) (starting_count resume_cursor : json)
    : M unit :=
  try_except
    (let* total :=
       process_all_recordings fuel (process_recording starting_count)
         resume_cursor in
     let* _ := print (Completed total) in
     let* present := path_exists cursor_state_file in
     if present then
       let* _ := remove cursor_state_file in
       print RemovedCursorState
     else ret tt)
    (λ e,
      let* _ := print (ErrorDuringProcessing e) in
      let* _ := print ResumeHint in
      raise e).

(** [main], with [test_mode = False] as in the source *)
Definition main (fuel : nat) : M unit :=
  let* E := ask in
  match api_token E with
  | None | Some EmptyString => raise ValueError
  | Some _ =>
      let* _ := print FetchingAll in
      let* cursor_state := load_cursor_state in
      let* start :=
        if truthy cursor_state then
          let* timestamp := lift (py_getitem cursor_state "timestamp") in
          let* _ := print (FoundSavedState timestamp) in
          let* count := lift (py_getitem cursor_state "processed_count") in
          let* _ := print (AlreadyProcessed count) in
          let* resume := resume_requested in
          if resume then
            let* resume_cursor := lift (py_getitem cursor_state "cursor") in
            let* starting_count :=
              lift (py_getitem cursor_state "processed_count") in
            ret (resume_cursor, starting_count)
          else
            let* present := path_exists cursor_state_file in
            let* _ := if present then remove cursor_state_file else ret tt in
            ret (JNull, JNum 0)
        else ret (JNull, JNum 0) in
      let '(resume_cursor, starting_count) := start in
      sync_all fuel starting_count resume_cursor
  end.

(** ** A reference runtime for concrete runs

    [iso_extended] reads [YYYY-MM-DD], alone or followed by a separator,
    [hh:mm:ss] and an optional offset [+hh:mm]: a profile that every
    version of [datetime.fromisoformat] accepts, with this meaning. *)

Definition digit (c : ascii) : option nat :=
  if PyStr.between 48 57 c then Some (N.to_nat (PyStr.code c) - 48)%nat
  else None.

Definition two_digits (a b : ascii) : option nat :=
  match digit a, digit b with
  | Some x, Some y => Some (10 * x + y)%nat
  | _, _ => None
  end.

Definition days_in_month (y m : nat) : nat :=
  match m with
  | 2 =>
      if ((y mod 4 =? 0) && (negb (y mod 100 =? 0) || (y mod 400 =? 0)))%nat
      then 29 else 28
  | 4 | 6 | 9 | 11 => 30
  | _ => 31
  end%nat.

Definition below (bound : nat) (o : option nat) : bool :=
  match o with
  | Some n => (n <? bound)%nat
  | None => false
  end.

Definition offset_ok (tz : string) : bool :=
  match tz with
  | EmptyString => true
  | String sg (String h1 (String h2 (String ":" (String m1 (String m2
      EmptyString))))) =>
      (Ascii.eqb sg "+" || Ascii.eqb sg "-")
      && below 24 (two_digits h1 h2) && below 60 (two_digits m1 m2)
  | _ => false
  end.

Definition time_ok (rest : string) : bool :=
  match rest with
  | EmptyString => true
  | String _ (String h1 (String h2 (String ":" (String m1 (String m2
      (String ":" (String s1 (String s2 tz)))))))) =>
      below 24 (two_digits h1 h2) && below 60 (two_digits m1 m2)
      && below 60 (two_digits s1 s2) && offset_ok tz
  | _ => false
  end.

Definition iso_extended (s : string) : option date :=
  match s with
  | String y1 (String y2 (String y3 (String y4 (String "-" (String m1
      (String m2 (String "-" (String d1 (String d2 rest))))))))) =>
      match two_digits y1 y2, two_digits y3 y4,
            two_digits m1 m2, two_digits d1 d2 with
      | Some yh, Some yl, Some m, Some d =>
          let y := (100 * yh + yl)%nat in
          if ((1 <=? y) && (1 <=? m) && (m <=? 12) && (1 <=? d)
              && (d <=? days_in_month y m))%nat && time_ok rest
          then Some (Date y m d) else None
      | _, _, _, _ => None
      end
  | _ => None
  end.

(** A recording as the listing returns it. *)
Definition summary (id title start : string) : json :=
  JObj [("id", JStr id); ("title", JStr title); ("start_datetime", JStr start)].

Definition rec1 : json := summary "r1" "One" "2024-03-05T10:00:00Z".
Definition rec2 : json := summary "r2" "Two" "2024-03-06T09:30:00Z".
Definition rec3 : json := summary "r3" "Three" "2024-03-07T16:45:00Z".

Definition details (recording_id : json) : reply :=
  match recording_id with
  | JStr "r1" => Reply rec1
  | JStr "r2" => Reply rec2
  | JStr "r3" => Reply rec3
  | _ => Fails (HTTPError 404)
  end.

(** The operator answers [answer_]; the system refuses nothing. *)
Definition sample_env (answer_ : string) (list_ get_ : json → reply) : env :=
  {| api_token := Some "secret";
     answer := answer_;
     remote_list := list_;
     remote_get := get_;
     now := "2024-04-01T12:00:00";
     refused := λ _, false;
     fromisoformat := iso_extended;
     repr := λ _, "[...]" |}.

Definition empty_world : world := World ∅ ∅ [].

(** A checkpoint left by an interrupted run: cursor ["c1"] after five
    recordings. *)
Definition checkpoint5 : json :=
  JObj [("cursor", JStr "c1"); ("processed_count", JNum 5);
        ("timestamp", JStr "2024-03-31T08:00:00")].

Definition interrupted_world : world :=
  World {[ cursor_state_file := Json checkpoint5 ]} ∅ [].

(** ** Notions the properties are stated with *)

(** [c.isalnum() or c in (" ", "-", "_")] on one character *)
Definition safe_char (c : ascii) : bool :=
  PyStr.isalnum c || Ascii.eqb c " " || Ascii.eqb c "-" || Ascii.eqb c "_".

(** the class [[A-Za-z0-9 _-]] *)
Definition title_class (c : ascii) : bool :=
  PyStr.ascii_alnum c || Ascii.eqb c " " || Ascii.eqb c "-" || Ascii.eqb c "_".

(** no white space at either end *)
Definition trimmed (s : string) : Prop := PyStr.strip s = s.

Fixpoint keep_chars (f : ascii → bool) (s : string) : string :=
  match s with
  | EmptyString => EmptyString
  | String c s' => if f c then String c (keep_chars f s') else keep_chars f s'
  end.

(** [d.get(k, default)] on the fields of a dict *)
Definition field (kvs : list (string * json)) (k : string) (default : json)
    : json :=
  match assoc k kvs with
  | Some v => v
  | None => default
  end.

(** the [datetime] a [start_datetime] value stands for, when it is a
    non-empty string that [fromisoformat] accepts *)
Definition parsed_start (E : env) (start : json) : option date :=
  match start with
  | JStr s =>
      if String.eqb s "" then None
      else fromisoformat E (PyStr.replace "Z" "+00:00" s)
  | _ => None
  end.

(** the directory of a recording below [root]: its date partition, or
    [root] itself when the start is missing or cannot be parsed *)
Definition expected_directory (E : env) (root : string) (start : json)
    : string :=
  match parsed_start E start with
  | Some dt => date_partition root dt
  | None => root
  end.

(** the title is missing or a string *)
Definition title_is_text (kvs : list (string * json)) : Prop :=
  match assoc "title" kvs with
  | None | Some (JStr _) => True
  | Some _ => False
  end.

(** the sanitized title (["Untitled"] when there is none) *)
Definition safe_title_of (kvs : list (string * json)) : string :=
  match assoc "title" kvs with
  | Some (JStr t) => PyStr.take 50 (PyStr.rstrip (keep_chars safe_char t))
  | _ => "Untitled"
  end.

(** the reduced projection written to the artifact *)
Definition projection (kvs : list (string * json)) (id : json) : json :=
  JObj [("id", id); ("title", field kvs "title" JNull);
        ("url", field kvs "url" JNull); ("source", field kvs "source" JNull);
        ("start_datetime", field kvs "start_datetime" JNull);
        ("participants", field kvs "participants" (JArr []));
        ("transcript", field kvs "transcript_json" (JObj []))].


(** what the look-up of [process_recording] answers: the id is a string,
    the start parses, [recordings] exists, and the listing of the date
    directory succeeds and has a name that starts with the id *)
Definition found_on_disk (E : env) (w : world) (recording_id start : json)
    : bool :=
  match recording_id, parsed_start E start with
  | JStr id, Some dt =>
      let dir := date_partition "recordings" dt in
      path_exists_in w "recordings"
      && negb (refused E dir)
      && bool_decide (dir ∈ dirs w)
      && existsb (λ f, PyStr.startswith f id) (entries w dir)
  | _, _ => false
  end.

(** ** What the operations leave on disk *)

(** nothing that was on disk has disappeared *)
Definition grows (w w' : world) : Prop :=
  dom (files w) ⊆ dom (files w') ∧ dirs w ⊆ dirs w'.

(** a computation that removes nothing, however it ends *)
Definition keeps {A} (m : M A) : Prop := ∀ E w, grows w (snd (m E w)).

(** a saved state was found and the operator did not answer [y] *)
Definition resume_declined (E : env) (w : world) : Prop :=
  (∃ v, files w !! cursor_state_file = Some (Json v) ∧ truthy v = true)
  ∧ String.eqb (PyStr.strip (PyStr.lower (answer E))) "y" = false.



(** a failure of the transport: no connection, or an HTTP status other
    than 404 *)
Definition is_transport (e : exn) : Prop :=
  match e with
  | ConnectionError => True
  | HTTPError status => status ≠ 404%nat
  | _ => False
  end.

(** the world after the handler of a record has reported the failure [e]
    of its detail fetch: the disk as it was, two more lines printed *)
Definition failure_logged (w : world) (n total : Z)
    (kvs : list (string * json)) (e : exn) : world :=
  World (files w) (dirs w)
    (log w ++ [Processing (n + (total + 1))
                 (field kvs "title" (JStr "Untitled"));
               Error e]).

(** ** More sample inputs *)

Definition fields1 : list (string * json) :=
  [("id", JStr "r1"); ("title", JStr "One");
   ("start_datetime", JStr "2024-03-05T10:00:00Z")].

Definition rec4 : json := summary "r4" "Four" "2024-03-08T11:00:00Z".

(** Three pages: [rec1], [rec2] and the cursor ["c1"]; [rec3] and the
    cursor ["c2"]; [rec4] and no cursor. *)
Definition three_pages (cursor : json) : reply :=
  match cursor with
  | JNull =>
      Reply (JObj [("recordings", JArr [rec1; rec2]); ("cursor", JStr "c1")])
  | JStr "c1" =>
      Reply (JObj [("recordings", JArr [rec3]); ("cursor", JStr "c2")])
  | JStr "c2" => Reply (JObj [("recordings", JArr [rec4])])
  | _ => Fails (HTTPError 400)
  end.

Definition details4 (recording_id : json) : reply :=
  match recording_id with
  | JStr "r4" => Reply rec4
  | _ => details recording_id
  end.

(** the listing cannot be reached *)
Definition unreachable (cursor : json) : reply := Fails ConnectionError.

(** the detail of [r1] fails with [e]; the others are served *)
Definition failing_r1 (e : exn) (recording_id : json) : reply :=
  match recording_id with
  | JStr "r1" => Fails e
  | _ => details recording_id
  end.

(** an artifact of [r1] lies directly in the output root *)
Definition flat_world : world :=
  World {[ "recordings/r1_One.json" := Json rec1 ]} {[ "recordings" ]} [].

(** an artifact of [r10] lies in the date directory of [rec1] *)
Definition other_id_world : world :=
  World {[ "recordings/2024/03/05/r10_Ten.json" := Json rec1 ]}
        {[ "recordings"; "recordings/2024"; "recordings/2024/03";
           "recordings/2024/03/05" ]} [].

(** ** The claims of the specification that the script does not meet,
    as they are worded *)

(** Sanitization: only [[A-Za-z0-9 _-]], trimmed, at most 50 characters. *)
Definition sanitization_claim : Prop :=
  ∀ title, ∃ component,
    clean_title (JStr title) = Ok component
    ∧ PyStr.all title_class component = true
    ∧ trimmed component
    ∧ (String.length component ≤ 50)%nat.

(** Existence check: true exactly when the expected directory (the date
    partition, or the flat root when the start is missing or unparsable)
    has an entry whose name starts with the id and an underscore. *)
Definition existence_claim : Prop :=
  ∀ E w id start,
    fst (already_downloaded (JStr id) start E w) = Ok true
    ↔ ∃ f,
        In f (entries w (expected_directory E "recordings" start))
        ∧ PyStr.startswith f (id ++ "_") = true.


(** Transport errors: a detail fetch that fails with one aborts the run
    and reaches the caller of [main]. *)
Definition transport_abort_claim : Prop :=
  ∀ fuel E w response page kvs rid e,
    is_transport e →
    remote_list E JNull = Reply response →
    py_get response "recordings" (JArr []) = Ok (JArr page) →
    In (JObj kvs) page →
    assoc "id" kvs = Some rid →
    found_on_disk E w rid (field kvs "start_datetime" JNull) = false →
    remote_get E rid = Fails e →
    fst (main (S fuel) E w) = Raise e.

(** Checkpoint: a consequence of the claim is that the file disappears
    only in a run that ends without an error. *)
Definition checkpoint_claim : Prop :=
  ∀ fuel E w,
    cursor_state_file ∈ dom (files w) →
    cursor_state_file ∉ dom (files (snd (main fuel E w))) →
    fst (main fuel E w) = Ok tt.

(** ** Further notions *)

(** a computation that ends: it returns or raises, it does not run out
    of fuel *)
Definition halts {A} (m : M A) : Prop := ∀ E w, fst (m E w) ≠ Timeout.

(** nothing but the file [p] has disappeared *)
Definition grows_but (p : string) (w w' : world) : Prop :=
  dom (files w) ∖ {[p]} ⊆ dom (files w') ∧ dirs w ⊆ dirs w'.

(** a computation that removes at most the file [p] *)
Definition keeps_but {A} (p : string) (m : M A) : Prop :=
  ∀ E w, grows_but p w (snd (m E w)).

(** [GRAIN_API_TOKEN] is set and not empty *)
Definition has_token (E : env) : Prop :=
  match api_token E with
  | Some (String _ _) => True
  | _ => False
  end.

(** a code point of ASCII *)
Definition is_ascii (c : ascii) : bool := (PyStr.code c <? 128)%N.

(** the checkpoint [save_cursor_state] writes *)
Definition checkpoint_of (E : env) (cursor : json) (count : Z) : json :=
  JObj [("cursor", cursor); ("processed_count", JNum count);
        ("timestamp", JStr (now E))].

(** the world with one more line printed *)
Definition printed (w : world) (evs : list event) : world :=
  World (files w) (dirs w) (log w ++ evs).

(** ** Sample inputs for the further properties *)

(** one page, [rec1] and [rec2], and no cursor *)
Definition last_page (cursor : json) : reply :=
  Reply (JObj [("recordings", JArr [rec1; rec2])]).

(** a listing without recordings *)
Definition no_recordings (cursor : json) : reply := Reply (JObj []).

(** the artifact of [rec1] is in its date directory *)
Definition downloaded_world : world :=
  World {[ "recordings/2024/03/05/r1_One.json" := Json rec1 ]}
        {[ "recordings"; "recordings/2024"; "recordings/2024/03";
           "recordings/2024/03/05" ]} [].

(** a checkpoint file that holds a JSON list *)
Definition list_checkpoint_world : world :=
  World {[ cursor_state_file := Json (JArr [JNum 1]) ]} ∅ [].

(** a checkpoint file that holds the empty object *)
Definition empty_checkpoint_world : world :=
  World {[ cursor_state_file := Json (JObj []) ]} ∅ [].

(** a decimal digit *)
Definition is_digit (c : ascii) : bool := PyStr.between 48 57 c.

(** a non-empty string of decimal digits *)
Definition numeral (s : string) : Prop :=
  PyStr.all is_digit s = true ∧ s ≠ "".

(** not the separator of paths *)
Definition not_slash (c : ascii) : bool := negb (Ascii.eqb c "/").

(** a title that cannot be iterated: [None], a number or a boolean *)
Definition not_iterable (v : json) : Prop :=
  match v with
  | JNull | JNum _ | JBool _ => True
  | _ => False
  end.

(** a run that, when it returns normally, leaves no checkpoint file *)
Definition ends_clean (r : outcome unit * world) : Prop :=
  fst r = Ok tt → cursor_state_file ∉ dom (files (snd r)).

(** ** Where an artifact lies *)







(** ** Titles over all of Unicode

    A [string] of the model holds code points up to U+00FF.  Lines 177
    to 180 of [save_recording_to_json] work on any [str]: here they are
    once more, on lists of code points.  The tables of [str.isalnum] and
    of the white space of [str.rstrip] are those of [PyStr] up to U+00FF
    and are left to the runtime beyond. *)

(** [c.isalnum()] for the code point [c] *)
Definition isalnum_point (wide : N → bool) (c : N) : bool :=
  if (c <? 256)%N then PyStr.isalnum (ascii_of_N c) else wide c.

(** [c.isspace()] for the code point [c] *)
Definition isspace_point (wide : N → bool) (c : N) : bool :=
  if (c <? 256)%N then PyStr.isspace (ascii_of_N c) else wide c.

(** [c.isalnum() or c in (" ", "-", "_")] *)
Definition safe_point (alnum : N → bool) (c : N) : bool :=
  alnum c || (c =? 32)%N || (c =? 45)%N || (c =? 95)%N.

(** [s.rstrip()] *)
Fixpoint rstrip_points (space : N → bool) (s : list N) : list N :=
  match s with
  | [] => []
  | c :: s' =>
      match rstrip_points space s' with
      | [] => if space c then [] else [c]
      | r => c :: r
      end
  end.

(** ["".join(c for c in title if ...).rstrip()[:50]] *)
Definition sanitize_points (alnum space : N → bool) (title : list N)
    : list N :=
  take 50 (rstrip_points space (List.filter (safe_point alnum) title)).

(** the code points of a string of the model *)
Fixpoint points (s : string) : list N :=
  match s with
  | EmptyString => []
  | String c s' => PyStr.code c :: points s'
  end.

(** the class [[A-Za-z0-9 _-]], on code points *)
Definition class_point (c : N) : bool :=
  ((48 <=? c) && (c <=? 57) || (65 <=? c) && (c <=? 90)
   || (97 <=? c) && (c <=? 122) || (c =? 32) || (c =? 45) || (c =? 95))%N.

(** no white space at the end *)
Definition no_trailing_space (space : N → bool) (s : list N) : Prop :=
  ∀ c, last s = Some c → space c = false.

(** * Properties *)

(** ** Running the monad *)

Lemma bind_ok {A B} (m : M A) (k : A → M B) E w a w' :
  m E w = (Ok a, w') → bind m k E w = k a E w'.
Proof. unfold bind. by intros ->. Qed.

Lemma bind_raise {A B} (m : M A) (k : A → M B) E w e w' :
  m E w = (Raise e, w') → bind m k E w = (Raise e, w').
Proof. unfold bind. by intros ->. Qed.

Lemma bind_ret {A B} (a : A) (k : A → M B) E w : bind (ret a) k E w = k a E w.
Proof. reflexivity. Qed.

Lemma bind_lift_ok {A B} (a : A) (k : A → M B) E w :
  bind (lift (Ok a)) k E w = k a E w.
Proof. reflexivity. Qed.

Lemma bind_lift_raise {A B} e (k : A → M B) E w :
  bind (lift (Raise e)) k E w = (Raise e, w).
Proof. reflexivity. Qed.

Lemma bind_raise_l {A B} e (k : A → M B) E w :
  bind (raise e) k E w = (Raise e, w).
Proof. reflexivity. Qed.

Lemma bind_ask {B} (k : env → M B) E w : bind ask k E w = k E E w.
Proof. reflexivity. Qed.

Lemma bind_print {B} ev (k : unit → M B) E w :
  bind (print ev) k E w = k tt E (World (files w) (dirs w) (log w ++ [ev])).
Proof. reflexivity. Qed.

Lemma bind_sleep {B} ms (k : unit → M B) E w :
  bind (sleep ms) k E w
  = k tt E (World (files w) (dirs w) (log w ++ [Sleep ms])).
Proof. reflexivity. Qed.

Lemma bind_path_exists {B} p (k : bool → M B) E w :
  bind (path_exists p) k E w = k (path_exists_in w p) E w.
Proof. reflexivity. Qed.

Lemma bind_assoc {A B C} (m : M A) (k : A → M B) (h : B → M C) E w :
  bind (bind m k) h E w = bind m (λ a, bind (k a) h) E w.
Proof. unfold bind. by destruct (m E w) as [[a|e|] w']. Qed.

Create Rewrite HintDb mrun.
#[local] Hint Rewrite @bind_ret @bind_lift_ok @bind_lift_raise @bind_raise_l
  @bind_ask @bind_print @bind_sleep @bind_path_exists : mrun.

Ltac mrun := autorewrite with mrun; cbn [files dirs log].

(** the same, after the nested [bind]s are brought to the front *)
Ltac mnorm := repeat first [rewrite bind_assoc | progress mrun].

Lemma bind_timeout {A B} (m : M A) (k : A → M B) E w w' :
  m E w = (Timeout, w') → bind m k E w = (Timeout, w').
Proof. unfold bind. by intros ->. Qed.

(** case analysis on the computation at the head of a [bind] *)
Ltac bind_case H :=
  match goal with
  | |- context [bind ?m ?k ?E ?w] =>
      let w1 := fresh "w" in
      destruct (m E w) as [[?|?|] w1] eqn:H;
      [ rewrite (bind_ok m k E w _ _ H)
      | rewrite (bind_raise m k E w _ _ H)
      | rewrite (bind_timeout m k E w _ H) ]
  end.

Lemma try_ok {A} (m : M A) h E w (a : A) w' :
  m E w = (Ok a, w') → try_except m h E w = (Ok a, w').
Proof. unfold try_except. by intros ->. Qed.

Lemma try_raise {A} (m : M A) h E w e w' :
  m E w = (Raise e, w') → try_except m h E w = h e E w'.
Proof. unfold try_except. by intros ->. Qed.

Lemma makedirs_ok E w p :
  refused E p = false →
  makedirs p E w
  = (Ok tt, World (files w) (dirs w ∪ list_to_set (p :: ancestors p)) (log w)).
Proof. unfold makedirs. by intros ->. Qed.

Lemma write_json_ok E w p v :
  refused E p = false →
  write_json p v E w = (Ok tt, World (<[p := Json v]> (files w)) (dirs w) (log w)).
Proof. unfold write_json. by intros ->. Qed.

Lemma truthy_parsed E start dt : parsed_start E start = Some dt → truthy start = true.
Proof.
  destruct start; try discriminate. simpl.
  destruct (String.eqb s ""); [discriminate|done].
Qed.

Lemma parse_start_datetime_some E w start dt :
  parsed_start E start = Some dt →
  parse_start_datetime start E w = (Ok dt, w).
Proof.
  destruct start; try discriminate. simpl.
  destruct (String.eqb s ""); [discriminate|].
  intros H. unfold bind, ask. by rewrite H.
Qed.

Lemma parse_start_datetime_none E w start :
  parsed_start E start = None → truthy start = true →
  ∃ e, parse_start_datetime start E w = (Raise e, w).
Proof.
  destruct start; simpl; intros Hp Ht; try discriminate; try by eexists.
  destruct (String.eqb s ""); [discriminate|].
  unfold bind, ask. rewrite Hp. by eexists.
Qed.

(** the directory [save_recording_to_json] chooses *)
Lemma save_directory E w root start :
  ∃ evs,
    (if truthy start then
       try_except
         (let* dt := parse_start_datetime start in
          ret (date_partition root dt))
         (λ e, let* _ := print (WarningDate start e) in ret root)
     else ret root) E w
    = (Ok (expected_directory E root start),
       World (files w) (dirs w) (log w ++ evs)).
Proof.
  unfold expected_directory.
  destruct (truthy start) eqn:Ht.
  - destruct (parsed_start E start) as [dt|] eqn:Hp.
    + exists []. erewrite try_ok.
      * rewrite app_nil_r. by destruct w.
      * erewrite bind_ok by by apply parse_start_datetime_some. reflexivity.
    + destruct (parse_start_datetime_none E w start Hp Ht) as [e He].
      exists [WarningDate start e]. erewrite try_raise.
      * reflexivity.
      * by erewrite bind_raise.
  - exists []. rewrite app_nil_r.
    destruct (parsed_start E start) eqn:Hp.
    + apply truthy_parsed in Hp. congruence.
    + by destruct w.
Qed.

(** ** Sanitizing the title *)

Lemma safe_item_char c : safe_item (String c EmptyString) = safe_char c.
Proof.
  unfold safe_item, safe_char, PyStr.str_isalnum; simpl.
  rewrite andb_true_r.
  unfold String.eqb; simpl.
  destruct (Ascii.eqb c " "), (Ascii.eqb c "-"), (Ascii.eqb c "_"); reflexivity.
Qed.

Lemma keep_safe_chars s :
  keep_safe (map JStr (PyStr.chars s))
  = Ok (PyStr.chars (keep_chars safe_char s)).
Proof.
  induction s as [|c s IH]; [reflexivity|].
  cbn [PyStr.chars map keep_safe keep_chars]. rewrite IH, safe_item_char.
  destruct (safe_char c); reflexivity.
Qed.

Lemma concat_chars s : PyStr.concat (PyStr.chars s) = s.
Proof. induction s as [|c s IH]; [reflexivity|]. simpl. by rewrite IH. Qed.

Lemma clean_title_str title :
  clean_title (JStr title)
  = Ok (PyStr.take 50 (PyStr.rstrip (keep_chars safe_char title))).
Proof.
  unfold clean_title. cbn [py_iter].
  rewrite keep_safe_chars, concat_chars. reflexivity.
Qed.

Lemma all_keep_chars f s : PyStr.all f (keep_chars f s) = true.
Proof.
  induction s as [|c s IH]; [reflexivity|]. simpl.
  destruct (f c) eqn:Hc; [simpl; by rewrite Hc|done].
Qed.

Lemma all_rstrip f s :
  PyStr.all f s = true → PyStr.all f (PyStr.rstrip s) = true.
Proof.
  induction s as [|c s IH]; [done|]. simpl. intros [Hc Hs]%andb_true_iff.
  specialize (IH Hs).
  destruct (PyStr.rstrip s) eqn:Hr.
  - destruct (PyStr.isspace c); simpl; [done|by rewrite Hc].
  - cbn [PyStr.all]. rewrite Hc. exact IH.
Qed.

Lemma all_take f n s :
  PyStr.all f s = true → PyStr.all f (PyStr.take n s) = true.
Proof.
  revert s; induction n as [|n IH]; intros [|c s]; try done.
  simpl. intros [Hc Hs]%andb_true_iff. rewrite Hc. by apply IH.
Qed.

Lemma length_take n s : (String.length (PyStr.take n s) ≤ n)%nat.
Proof.
  revert s; induction n as [|n IH]; intros [|c s]; simpl; try lia.
  specialize (IH s). lia.
Qed.

Lemma take_short n s :
  String.length (PyStr.take n s) ≠ n → PyStr.take n s = s.
Proof.
  revert s; induction n as [|n IH]; intros [|c s]; simpl; try done.
  intros H. f_equal. apply IH. lia.
Qed.

Lemma rstrip_idem s : PyStr.rstrip (PyStr.rstrip s) = PyStr.rstrip s.
Proof.
  induction s as [|c s IH]; [done|]. simpl.
  destruct (PyStr.rstrip s) as [|d r] eqn:Hr.
  - destruct (PyStr.isspace c) eqn:Hc; [done|]. simpl. by rewrite Hc.
  - change (PyStr.rstrip (String c (String d r))) with
      (match PyStr.rstrip (String d r) with
       | EmptyString =>
           if PyStr.isspace c then EmptyString else String c EmptyString
       | r' => String c r'
       end).
    rewrite IH. reflexivity.
Qed.

Lemma safe_char_class c : safe_char c = title_class c || PyStr.latin1_alnum c.
Proof.
  unfold safe_char, title_class, PyStr.isalnum.
  destruct (PyStr.ascii_alnum c), (PyStr.latin1_alnum c), (Ascii.eqb c " "),
    (Ascii.eqb c "-"), (Ascii.eqb c "_"); reflexivity.
Qed.

Lemma all_ext f g s : (∀ c, f c = g c) → PyStr.all f s = PyStr.all g s.
Proof. intros H. induction s as [|c s IH]; [done|]. simpl. by rewrite H, IH. Qed.

Lemma clean_title_text kvs :
  title_is_text kvs →
  clean_title (field kvs "title" (JStr "Untitled")) = Ok (safe_title_of kvs).
Proof.
  unfold title_is_text, field, safe_title_of.
  destruct (assoc "title" kvs) as [[]|]; try done; intros _.
  apply clean_title_str.
Qed.

(** ** The artifact writer *)

Lemma save_recording_to_json_ok E w root kvs rid :
  assoc "id" kvs = Some rid →
  title_is_text kvs →
  let dir := expected_directory E root (field kvs "start_datetime" JNull) in
  let path := join dir [py_str E rid ++ "_" ++ safe_title_of kvs ++ ".json"] in
  refused E dir = false →
  refused E path = false →
  ∃ evs,
    save_recording_to_json (JObj kvs) root E w
    = (Ok path,
       World (<[path := Json (projection kvs rid)]> (files w))
             (dirs w ∪ list_to_set (dir :: ancestors dir))
             (log w ++ evs ++ [Saved path root])).
Proof.
  intros Hid Htitle dir path Hdir Hpath.
  destruct (save_directory E w root (field kvs "start_datetime" JNull))
    as [evs Hd].
  exists evs. unfold save_recording_to_json.
  cbn [py_get py_getitem]. fold (field kvs "start_datetime" JNull).
  rewrite Hid. mrun.
  erewrite bind_ok by exact Hd. fold dir.
  erewrite bind_ok by by apply makedirs_ok.
  mrun. fold (field kvs "title" (JStr "Untitled")).
  rewrite (clean_title_text _ Htitle). mrun.
  fold path. erewrite bind_ok by by apply write_json_ok.
  mrun. unfold ret, projection, field. cbn. by rewrite <- app_assoc.
Qed.

(** ** The look-up of an earlier download *)

Lemma listdir_ok E w p :
  refused E p = false → p ∈ dirs w → listdir p E w = (Ok (entries w p), w).
Proof.
  unfold listdir. intros -> Hp. by rewrite bool_decide_eq_true_2.
Qed.

Lemma listdir_fails E w p :
  refused E p = true ∨ p ∉ dirs w → listdir p E w = (Raise OSError, w).
Proof.
  unfold listdir. intros [->|Hp]; [done|].
  rewrite bool_decide_eq_false_2 by done. by destruct (refused E p).
Qed.

Lemma filter_existsb {A} (p : A → bool) (l : list A) :
  existsb p l = match List.filter p l with [] => false | _ => true end.
Proof.
  induction l as [|x l IH]; [done|]. simpl.
  destruct (p x); [done|]. exact IH.
Qed.

Lemma parsed_start_falsy E start : truthy start = false → parsed_start E start = None.
Proof.
  intros Ht. destruct (parsed_start E start) eqn:Hp; [|done].
  apply truthy_parsed in Hp. congruence.
Qed.

Lemma world_eta w : World (files w) (dirs w) (log w ++ []) = w.
Proof. rewrite app_nil_r. by destruct w. Qed.

Lemma already_downloaded_run E w rid start :
  ∃ evs,
    already_downloaded rid start E w
    = (Ok (found_on_disk E w rid start),
       World (files w) (dirs w) (log w ++ evs))
    ∧ (found_on_disk E w rid start = false → evs = []).
Proof.
  unfold already_downloaded, found_on_disk. mrun.
  destruct (truthy start) eqn:Ht; cycle 1.
  { exists []. rewrite (parsed_start_falsy E _ Ht), world_eta.
    split; [|done]. by destruct rid. }
  destruct (path_exists_in w "recordings") eqn:Hroot; cycle 1.
  { exists []. rewrite world_eta. split; [|done].
    cbn. by destruct rid, (parsed_start E start). }
  cbn [andb]. unfold try_except.
  destruct (parsed_start E start) as [dt|] eqn:Hp; cycle 1.
  { destruct (parse_start_datetime_none E w start Hp Ht) as [e He].
    erewrite bind_raise by exact He.
    exists []. rewrite world_eta. split; [|done]. by destruct rid. }
  erewrite bind_ok by by apply parse_start_datetime_some.
  cbv zeta. mrun.
  set (dir := date_partition "recordings" dt).
  destruct (refused E dir) eqn:Href.
  { exists []. rewrite world_eta. split; [|done].
    destruct (path_exists_in w dir);
      [erewrite bind_raise by (apply listdir_fails; by left)|];
      by destruct rid. }
  destruct (decide (dir ∈ dirs w)) as [Hdir|Hdir]; cycle 1.
  { exists []. rewrite world_eta. split; [|done].
    rewrite (bool_decide_eq_false_2 _ Hdir), andb_false_r.
    destruct (path_exists_in w dir);
      [erewrite bind_raise by (apply listdir_fails; by right)|];
      by destruct rid. }
  assert (path_exists_in w dir = true) as ->.
  { unfold path_exists_in. by rewrite (bool_decide_eq_true_2 _ Hdir). }
  erewrite bind_ok by by apply listdir_ok.
  rewrite (bool_decide_eq_true_2 _ Hdir). cbn [negb andb].
  destruct rid as [| | |id| |];
    try (exists []; rewrite world_eta; split; [|done];
         by destruct (entries w dir)).
  mrun. rewrite filter_existsb.
  destruct (List.filter _ (entries w dir)) as [|f fs].
  - exists []. by rewrite world_eta.
  - mrun. eexists. split; [reflexivity|done].
Qed.

(** ** Nothing but [os.remove] takes a path away *)

Lemma grows_refl w : grows w w.
Proof. by split. Qed.

Lemma grows_trans w1 w2 w3 : grows w1 w2 → grows w2 w3 → grows w1 w3.
Proof. intros [??] [??]. split; set_solver. Qed.

Lemma grows_log w evs : grows w (World (files w) (dirs w) evs).
Proof. by split. Qed.

Create HintDb keeps.

Lemma keeps_ret {A} (a : A) : keeps (ret a).
Proof. intros E w. apply grows_refl. Qed.

Lemma keeps_raise {A} e : keeps (@raise A e).
Proof. intros E w. apply grows_refl. Qed.

Lemma keeps_timeout {A} : keeps (@timeout A).
Proof. intros E w. apply grows_refl. Qed.

Lemma keeps_lift {A} (o : outcome A) : keeps (lift o).
Proof. intros E w. apply grows_refl. Qed.

Lemma keeps_ask : keeps ask.
Proof. intros E w. apply grows_refl. Qed.

Lemma keeps_print ev : keeps (print ev).
Proof. intros E w. apply grows_log. Qed.

Lemma keeps_sleep ms : keeps (sleep ms).
Proof. apply keeps_print. Qed.

Lemma keeps_path_exists p : keeps (path_exists p).
Proof. intros E w. apply grows_refl. Qed.

Lemma keeps_makedirs p : keeps (makedirs p).
Proof.
  intros E w. unfold makedirs. destruct (refused E p); [apply grows_refl|].
  split; cbn; set_solver.
Qed.

Lemma keeps_listdir p : keeps (listdir p).
Proof.
  intros E w. unfold listdir.
  destruct (refused E p), (bool_decide (p ∈ dirs w)); apply grows_refl.
Qed.

Lemma keeps_write_json p v : keeps (write_json p v).
Proof.
  intros E w. unfold write_json. destruct (refused E p); [apply grows_refl|].
  split; cbn; [|done]. rewrite dom_insert_L. set_solver.
Qed.

Lemma keeps_read_json p : keeps (read_json p).
Proof.
  intros E w. unfold read_json.
  destruct (refused E p); [apply grows_refl|].
  destruct (files w !! p) as [[]|]; apply grows_refl.
Qed.

Lemma keeps_call r : keeps (call r).
Proof. destruct r; intros E w; apply grows_refl. Qed.

Lemma keeps_bind {A B} (m : M A) (k : A → M B) :
  keeps m → (∀ a, keeps (k a)) → keeps (bind m k).
Proof.
  intros Hm Hk E w. unfold bind. specialize (Hm E w).
  destruct (m E w) as [[a|e|] w1]; cbn in *; [|done..].
  eapply grows_trans; [exact Hm|apply Hk].
Qed.

Lemma keeps_try {A} (m : M A) h :
  keeps m → (∀ e, keeps (h e)) → keeps (try_except m h).
Proof.
  intros Hm Hh E w. unfold try_except. specialize (Hm E w).
  destruct (m E w) as [[a|e|] w1]; cbn in *; [done| |done].
  eapply grows_trans; [exact Hm|apply Hh].
Qed.

#[local] Hint Resolve keeps_ret keeps_raise keeps_timeout keeps_lift keeps_ask
  keeps_print keeps_sleep keeps_path_exists keeps_makedirs keeps_listdir
  keeps_write_json keeps_read_json keeps_call : keeps.

Ltac keeps_step :=
  match goal with
  | |- keeps (bind _ _) => apply keeps_bind; [|intros ?]
  | |- keeps (try_except _ _) => apply keeps_try; [|intros ?]
  | |- keeps (if ?b then _ else _) => destruct b
  | |- keeps (match ?x with _ => _ end) => destruct x
  | |- keeps _ => solve [auto with keeps]
  end.

Ltac keeps_tac := repeat keeps_step.

Lemma keeps_get_recording id : keeps (get_recording id).
Proof. unfold get_recording. keeps_tac. Qed.

Lemma keeps_list_recordings c : keeps (list_recordings c).
Proof. unfold list_recordings. keeps_tac. Qed.

Lemma keeps_save_cursor_state c n : keeps (save_cursor_state c n).
Proof. unfold save_cursor_state. keeps_tac. Qed.

Lemma keeps_load_cursor_state : keeps load_cursor_state.
Proof. unfold load_cursor_state. keeps_tac. Qed.

Lemma keeps_parse_start_datetime s : keeps (parse_start_datetime s).
Proof. unfold parse_start_datetime. keeps_tac. Qed.

#[local] Hint Resolve keeps_get_recording keeps_list_recordings
  keeps_save_cursor_state keeps_load_cursor_state
  keeps_parse_start_datetime : keeps.

Lemma keeps_save_recording_to_json r root : keeps (save_recording_to_json r root).
Proof. unfold save_recording_to_json. keeps_tac. Qed.

Lemma keeps_already_downloaded id s : keeps (already_downloaded id s).
Proof. unfold already_downloaded. keeps_tac. Qed.

#[local] Hint Resolve keeps_save_recording_to_json keeps_already_downloaded
  : keeps.

Lemma keeps_process_recording n r i : keeps (process_recording n r i).
Proof. unfold process_recording. keeps_tac. Qed.

Lemma keeps_for_each cb rs n :
  (∀ r i, keeps (cb r i)) → keeps (for_each cb rs n).
Proof.
  intros Hcb. revert n. induction rs as [|r rs IH]; intros n; cbn.
  - apply keeps_ret.
  - apply keeps_bind; [apply Hcb|intros _; apply IH].
Qed.

Lemma keeps_page_step cb st :
  (∀ r i, keeps (cb r i)) → keeps (page_step cb st).
Proof.
  intros Hcb. destruct st as [[c t] p]. unfold page_step.
  pose proof (keeps_for_each cb) as Hfor.
  keeps_tac; auto with keeps.
Qed.

Lemma keeps_while_true {S} fuel (body : S → M (control S)) s :
  (∀ s, keeps (body s)) → keeps (while_true fuel body s).
Proof.
  intros Hb. revert s. induction fuel as [|fuel IH]; intros s; cbn.
  - apply keeps_timeout.
  - apply keeps_bind; [apply Hb|]. intros [s'|s']; [apply keeps_ret|apply IH].
Qed.

Lemma keeps_process_all_recordings fuel cb c :
  (∀ r i, keeps (cb r i)) → keeps (process_all_recordings fuel cb c).
Proof.
  intros Hcb. unfold process_all_recordings.
  apply keeps_bind; [|intros ?; apply keeps_ret].
  apply keeps_while_true. intros s. by apply keeps_page_step.
Qed.

(** ** The checkpoint store *)

Lemma load_cursor_state_run E w :
  ∃ v evs,
    load_cursor_state E w = (Ok v, World (files w) (dirs w) (log w ++ evs))
    ∧ (v = JNull ∨ files w !! cursor_state_file = Some (Json v)).
Proof.
  unfold load_cursor_state. mrun.
  destruct (path_exists_in w cursor_state_file).
  - unfold try_except, read_json.
    destruct (refused E cursor_state_file).
    { mrun. exists JNull. eexists. split; [reflexivity|by left]. }
    destruct (files w !! cursor_state_file) as [[v|]|] eqn:Hf.
    + exists v, []. rewrite world_eta. split; [done|by right].
    + mrun. exists JNull. eexists. split; [reflexivity|by left].
    + mrun. exists JNull. eexists. split; [reflexivity|by left].
  - exists JNull, []. rewrite world_eta. split; [done|by left].
Qed.

(** ** The pagination loop *)

Lemma page_step_breaks cb st E w c w' :
  page_step cb st E w = (Ok c, w') → ∃ s, c = Break s.
Proof.
  destruct st as [[cur tot] pg]. unfold page_step. mrun.
  bind_case Hl; [|discriminate..].
  bind_case Hr; [|discriminate..].
  destruct (negb (truthy a0)); [intros [= <- _]; by eexists|].
  bind_case Hn; [|discriminate..]. mrun.
  bind_case Hi; [|discriminate..].
  bind_case Hf; [|discriminate..].
  bind_case Hc; [|discriminate..].
  destruct (negb (truthy a4)); [intros [= <- _]; by eexists|].
  bind_case Hs; [|discriminate..]. mrun.
  intros [= <- _]; by eexists.
Qed.

Lemma while_true_once {S} fuel (body : S → M (control S)) s E w :
  (∀ s E w c w', body s E w = (Ok c, w') → ∃ s', c = Break s') →
  while_true (Datatypes.S fuel) body s E w = while_true 1 body s E w.
Proof.
  intros Hb. cbn [while_true].
  bind_case H.
  - destruct (Hb _ _ _ _ _ H) as [s' ->]. symmetry.
    by erewrite bind_ok by exact H.
  - symmetry. by erewrite bind_raise by exact H.
  - symmetry. by erewrite bind_timeout by exact H.
Qed.

Lemma process_all_recordings_fuel fuel cb c E w :
  process_all_recordings (S fuel) cb c E w
  = process_all_recordings 1 cb c E w.
Proof.
  unfold process_all_recordings, bind.
  rewrite (while_true_once fuel); [done|].
  intros. by eapply page_step_breaks.
Qed.

Lemma for_each_total cb page total E w n w' :
  for_each cb page total E w = (Ok n, w') →
  n = (total + Z.of_nat (length page))%Z.
Proof.
  revert total w. induction page as [|r page IH]; intros total w; cbn.
  - intros [= <- _]. lia.
  - bind_case Hcb; [|discriminate..].
    intros H. apply IH in H. lia.
Qed.

(** A non-empty page that comes with a cursor ends the run: its records
    are handled, the cursor is saved with the number of records of this
    page, and [process_all_recordings] returns that number. *)
Lemma stops_after_first_page fuel cb c E w response page cur n w1 :
  remote_list E (if truthy c then c else JNull) = Reply response →
  py_get response "recordings" (JArr []) = Ok (JArr page) →
  page ≠ [] →
  py_get response "cursor" JNull = Ok cur →
  truthy cur = true →
  refused E cursor_state_file = false →
  for_each cb page 0 E
    (World (files w) (dirs w)
       (log w ++ [FetchingPage 1; ProcessingPage (Z.of_nat (length page))]))
  = (Ok n, w1) →
  n = Z.of_nat (length page)
  ∧ process_all_recordings (S fuel) cb c E w
    = (Ok n,
       World
         (<[cursor_state_file :=
              Json (JObj [("cursor", cur); ("processed_count", JNum n);
                          ("timestamp", JStr (now E))])]> (files w1))
         (dirs w1)
         (log w1 ++ [SavedCursorState n; Sleep 500])).
Proof.
  intros Hlist Hrecs Hne Hcur Htruthy Hfs Hfor.
  split; [by apply for_each_total in Hfor|].
  rewrite process_all_recordings_fuel.
  unfold process_all_recordings. cbn [while_true].
  unfold page_step, list_recordings. mnorm.
  rewrite Hlist. cbn [call]. mnorm. rewrite Hrecs. mnorm.
  destruct page as [|r page]; [done|]. cbn [truthy negb py_len py_iter].
  mnorm. rewrite <- app_assoc. cbn [app].
  erewrite bind_ok by exact Hfor.
  rewrite Hcur. mnorm. rewrite Htruthy. cbn [negb].
  unfold save_cursor_state. mnorm.
  erewrite bind_ok by by apply write_json_ok.
  mnorm. cbn. by rewrite <- app_assoc.
Qed.

(** ** Where the checkpoint file is removed *)

Lemma remains w w' p : grows w w' → p ∈ dom (files w) → p ∈ dom (files w').
Proof. intros [H _] ?. by apply H. Qed.

Lemma sync_all_removal fuel n c E w :
  cursor_state_file ∈ dom (files w) →
  cursor_state_file ∉ dom (files (snd (sync_all fuel n c E w))) →
  fst (sync_all fuel n c E w) = Ok tt.
Proof.
  intros Hin.
  destruct (sync_all fuel n c E w) as [o w'] eqn:Hs. cbn [fst snd].
  revert Hs. unfold sync_all, try_except.
  pose proof (keeps_process_all_recordings fuel (process_recording n) c
                (keeps_process_recording n) E w) as Hg.
  bind_case Hp; cbn in Hg; pose proof (remains _ _ _ Hg Hin) as Hin1.
  - mrun. unfold path_exists_in.
    rewrite (bool_decide_eq_true_2 _ Hin1), orb_true_r.
    apply elem_of_dom in Hin1 as [x Hx].
    assert (cursor_state_file ∈ dom (files w0)) by (apply elem_of_dom; eauto).
    unfold remove, bind at 1. cbn [files dirs log].
    destruct (refused E cursor_state_file); [mrun; by intros [= <- <-]|].
    rewrite Hx. by intros [= <- <-].
  - mrun. by intros [= <- <-].
  - by intros [= <- <-].
Qed.

(** ** Per-record handling *)

Lemma found_on_disk_log E w evs rid start :
  found_on_disk E (World (files w) (dirs w) evs) rid start
  = found_on_disk E w rid start.
Proof. reflexivity. Qed.

(** A detail fetch that raises is logged by the handler, which returns
    normally. *)
Lemma process_recording_fetch_fails E w n kvs idx rid e :
  assoc "id" kvs = Some rid →
  found_on_disk E w rid (field kvs "start_datetime" JNull) = false →
  remote_get E rid = Fails e →
  process_recording (JNum n) (JObj kvs) idx E w
  = (Ok tt,
     World (files w) (dirs w)
       (log w ++ [Processing (n + idx) (field kvs "title" (JStr "Untitled"));
                  Error e])).
Proof.
  intros Hid Hnew Hget. unfold process_recording.
  cbn [py_add_int py_get py_getitem]. rewrite Hid. mrun.
  fold (field kvs "title" (JStr "Untitled")).
  fold (field kvs "start_datetime" JNull).
  unfold try_except. mrun.
  match goal with
  | |- context [bind (already_downloaded ?r ?s) _ _ ?w0] =>
      destruct (already_downloaded_run E w0 r s) as (evs & Hrun & Hevs)
  end.
  rewrite found_on_disk_log in Hrun, Hevs.
  rewrite Hnew in Hrun. rewrite (Hevs Hnew), app_nil_r in Hrun.
  cbn [files dirs log] in Hrun.
  erewrite bind_ok by exact Hrun.
  unfold get_recording. rewrite bind_assoc. mrun. rewrite Hget.
  cbn [call]. mrun. unfold print. cbn. by rewrite <- app_assoc.
Qed.

Lemma for_each_cons cb r rest total E w w' :
  cb r (total + 1)%Z E w = (Ok tt, w') →
  for_each cb (r :: rest) total E w = for_each cb rest (total + 1)%Z E w'.
Proof. intros H. cbn [for_each]. by erewrite bind_ok by exact H. Qed.

(** ** The reference runtime *)

Lemma two_digits_bound a b n : two_digits a b = Some n → (n < 100)%nat.
Proof.
  unfold two_digits, digit.
  destruct (PyStr.between 48 57 a) eqn:Ha; [|discriminate].
  destruct (PyStr.between 48 57 b) eqn:Hb; [|discriminate].
  intros [= <-]. unfold PyStr.between in *.
  apply andb_true_iff in Ha as [Ha1 Ha2], Hb as [Hb1 Hb2].
  apply N.leb_le in Ha1, Ha2, Hb1, Hb2. lia.
Qed.




(** ** Strings and paths *)

Lemma append_cons c (a b : string) : String c a ++ b = String c (a ++ b).
Proof. reflexivity. Qed.

Lemma string_app_assoc (a b c : string) : (a ++ b) ++ c = a ++ (b ++ c).
Proof.
  induction a as [|x a IH]; [done|]. by rewrite !append_cons, IH.
Qed.

Lemma strip_prefix_app p s : PyStr.strip_prefix p (p ++ s) = Some s.
Proof.
  induction p as [|c p IH]; [done|].
  rewrite append_cons. cbn [PyStr.strip_prefix]. by rewrite Ascii.eqb_refl.
Qed.

Lemma prefix_app a b : String.prefix a (a ++ b) = true.
Proof.
  induction a as [|c a IH]; [by destruct b|].
  rewrite append_cons. cbn [String.prefix].
  by destruct (Ascii.ascii_dec c c).
Qed.

Lemma all_app f a b :
  PyStr.all f (a ++ b) = PyStr.all f a && PyStr.all f b.
Proof.
  induction a as [|c a IH]; [done|].
  rewrite append_cons. cbn [PyStr.all]. by rewrite IH, andb_assoc.
Qed.

Lemma all_impl (f g : ascii → bool) s :
  (∀ c, f c = true → g c = true) →
  PyStr.all f s = true → PyStr.all g s = true.
Proof.
  intros H. induction s as [|c s IH]; [done|]. cbn [PyStr.all].
  intros [Hc Hs]%andb_true_iff. by rewrite (H _ Hc), IH.
Qed.

Lemma no_slash_contains s :
  PyStr.all not_slash s = true ↔ PyStr.contains_char "/" s = false.
Proof.
  induction s as [|c s IH]; [done|].
  cbn [PyStr.all PyStr.contains_char]. unfold not_slash at 1.
  rewrite andb_true_iff, orb_false_iff, negb_true_iff. tauto.
Qed.

Lemma no_slash_startswith s :
  PyStr.all not_slash s = true → PyStr.startswith s "/" = false.
Proof.
  destruct s as [|c s]; [done|].
  unfold PyStr.startswith. cbn [PyStr.all String.prefix].
  unfold not_slash at 1.
  intros [Hc _]%andb_true_iff. apply negb_true_iff, Ascii.eqb_neq in Hc.
  by destruct (Ascii.ascii_dec "/" c) as [<-|].
Qed.

Lemma last_char_app a b : b ≠ "" → PyStr.last_char (a ++ b) = PyStr.last_char b.
Proof.
  intros Hb. induction a as [|c a IH]; [done|].
  rewrite append_cons. cbn [PyStr.last_char]. rewrite <- IH.
  destruct (a ++ b) eqn:Hab; [|done].
  destruct a; [change (b = "") in Hab; congruence|].
  rewrite append_cons in Hab. discriminate.
Qed.

Lemma no_slash_endswith s :
  PyStr.all not_slash s = true → PyStr.endswith_char s "/" = false.
Proof.
  unfold PyStr.endswith_char.
  induction s as [|c s IH]; [done|]. cbn [PyStr.all PyStr.last_char].
  intros [Hc Hs]%andb_true_iff. destruct s as [|d s].
  - by apply negb_true_iff in Hc.
  - by apply IH.
Qed.

Lemma digit_not_slash c : is_digit c = true → not_slash c = true.
Proof.
  unfold is_digit, not_slash, PyStr.between.
  intros H. apply negb_true_iff, Ascii.eqb_neq. intros ->.
  vm_compute in H. discriminate.
Qed.

Lemma pretty_N_char_digit x : is_digit (pretty_N_char x) = true.
Proof.
  destruct x as [|p]; [reflexivity|].
  repeat first [reflexivity | destruct p as [p|p|]].
Qed.

Lemma pretty_N_go_digits x s :
  PyStr.all is_digit s = true → PyStr.all is_digit (pretty_N_go x s) = true.
Proof.
  revert s. induction (N.lt_wf_0 x) as [x _ IH]; intros s Hs.
  destruct (decide (x = 0)%N) as [->|Hx]; [by rewrite pretty_N_go_0|].
  rewrite pretty_N_go_step by lia. apply IH.
  - apply N.div_lt; lia.
  - cbn. by rewrite pretty_N_char_digit.
Qed.

Lemma pretty_N_go_nonempty x s : s ≠ "" → pretty_N_go x s ≠ "".
Proof.
  revert s. induction (N.lt_wf_0 x) as [x _ IH]; intros s Hs.
  destruct (decide (x = 0)%N) as [->|Hx]; [by rewrite pretty_N_go_0|].
  rewrite pretty_N_go_step by lia. apply IH; [apply N.div_lt; lia|done].
Qed.

Lemma pretty_nat_numeral (n : nat) : numeral (pretty n).
Proof.
  unfold pretty, pretty_nat, pretty, pretty_N.
  destruct (decide (N.of_nat n = 0)%N) as [|Hn]; [done|].
  split.
  - by apply pretty_N_go_digits.
  - rewrite pretty_N_go_step by lia. by apply pretty_N_go_nonempty.
Qed.

Lemma pad2_numeral n : numeral (pad2 n).
Proof.
  unfold pad2. destruct (pretty_nat_numeral n) as [Hd Hne].
  destruct (n <? 10)%nat; [|done].
  split; [|done]. cbn. exact Hd.
Qed.

Lemma numeral_no_slash s : numeral s → PyStr.all not_slash s = true.
Proof. intros [H _]. eapply all_impl; [apply digit_not_slash|done]. Qed.

Lemma join2_plain path b :
  path ≠ "" →
  PyStr.endswith_char path "/" = false →
  PyStr.startswith b "/" = false →
  join2 path b = path ++ "/" ++ b.
Proof.
  intros Hp He Hb. unfold join2. rewrite Hb, He.
  destruct path; [done|]. reflexivity.
Qed.

Lemma endswith_app a b :
  b ≠ "" → PyStr.all not_slash b = true →
  PyStr.endswith_char (a ++ b) "/" = false.
Proof.
  intros Hne Hb. pose proof (no_slash_endswith b Hb) as He.
  unfold PyStr.endswith_char in *. by rewrite last_char_app.
Qed.

Lemma append_nonempty (a b : string) : a ≠ "" → a ++ b ≠ "".
Proof. destruct a; [done|]. intros _. rewrite append_cons. discriminate. Qed.

(** the date directory, written out *)
Lemma date_partition_shape dt :
  date_partition "recordings" dt
  = "recordings/" ++ pretty (year dt) ++ "/" ++ pad2 (month dt)
    ++ "/" ++ pad2 (day dt).
Proof.
  unfold date_partition, join. cbn [fold_left].
  destruct (pretty_nat_numeral (year dt)) as [Hy Hyne].
  destruct (pad2_numeral (month dt)) as [Hm Hmne].
  destruct (pad2_numeral (day dt)) as [Hd Hdne].
  pose proof (numeral_no_slash _ (conj Hy Hyne)) as Hys.
  pose proof (numeral_no_slash _ (conj Hm Hmne)) as Hms.
  pose proof (numeral_no_slash _ (conj Hd Hdne)) as Hds.
  set (y := pretty (year dt)) in *.
  set (mm := pad2 (month dt)) in *.
  set (dd := pad2 (day dt)) in *.
  assert (join2 "recordings" y = "recordings/" ++ y) as ->.
  { rewrite join2_plain; [done|done|done|by apply no_slash_startswith]. }
  assert (join2 ("recordings/" ++ y) mm = "recordings/" ++ y ++ "/" ++ mm)
    as ->.
  { rewrite join2_plain.
    - by rewrite string_app_assoc.
    - by apply append_nonempty.
    - by apply endswith_app.
    - by apply no_slash_startswith. }
  rewrite join2_plain.
  - by rewrite !string_app_assoc.
  - by apply append_nonempty.
  - rewrite <- !string_app_assoc. by apply endswith_app.
  - by apply no_slash_startswith.
Qed.

Lemma safe_char_not_slash c : safe_char c = true → not_slash c = true.
Proof.
  intros H. unfold not_slash. apply negb_true_iff, Ascii.eqb_neq.
  intros ->. vm_compute in H. discriminate.
Qed.

Lemma safe_title_no_slash kvs : PyStr.all not_slash (safe_title_of kvs) = true.
Proof.
  unfold safe_title_of.
  destruct (assoc "title" kvs) as [[]|]; try reflexivity.
  eapply all_impl; [apply safe_char_not_slash|].
  apply all_take, all_rstrip, all_keep_chars.
Qed.

Lemma ascii_not_latin1 c :
  is_ascii c = true → PyStr.latin1_alnum c = false.
Proof. destruct c as [[] [] [] [] [] [] [] []]; vm_compute; congruence. Qed.

(** ** The sanitizer on code points *)

Lemma rstrip_points_split space s :
  ∃ stripped,
    s = (rstrip_points space s ++ stripped)%list
    ∧ Forall (λ c, space c = true) stripped.
Proof.
  induction s as [|c s (stripped & Hs & Hsp)]; [by exists []|].
  cbn [rstrip_points]. destruct (rstrip_points space s) as [|x r].
  - cbn [app] in Hs. subst stripped. destruct (space c) eqn:Hc.
    + exists (c :: s). split; [done|]. by constructor.
    + by exists s.
  - exists stripped. split; [|done]. cbn [app] in *. by f_equal.
Qed.

Lemma rstrip_points_end space s : no_trailing_space space (rstrip_points space s).
Proof.
  unfold no_trailing_space. induction s as [|c0 s IH]; [done|].
  cbn [rstrip_points]. destruct (rstrip_points space s) as [|x r].
  - destruct (space c0) eqn:Hc; [done|]. by intros c [= <-].
  - intros c Hc. apply IH. by rewrite last_cons_cons in Hc.
Qed.

Lemma Forall_filter_safe (f : N → bool) l :
  Forall (λ c, f c = true) (List.filter f l).
Proof.
  induction l as [|c l IH]; [constructor|]. cbn [List.filter].
  destruct (f c) eqn:Hc; [by constructor|done].
Qed.

Lemma code_embedding a : ascii_of_N (PyStr.code a) = a.
Proof. apply ascii_N_embedding. Qed.

Lemma code_below a : (PyStr.code a <? 256)%N = true.
Proof. apply N.ltb_lt, N_ascii_bounded. Qed.

Lemma isalnum_point_code wide a :
  isalnum_point wide (PyStr.code a) = PyStr.isalnum a.
Proof. unfold isalnum_point. by rewrite code_below, code_embedding. Qed.

Lemma isspace_point_code wide a :
  isspace_point wide (PyStr.code a) = PyStr.isspace a.
Proof. unfold isspace_point. by rewrite code_below, code_embedding. Qed.

Lemma eqb_code a n :
  (n < 256)%N → Ascii.eqb a (ascii_of_N n) = (PyStr.code a =? n)%N.
Proof.
  intros Hn. destruct (Ascii.eqb_spec a (ascii_of_N n)) as [->|Hne].
  - unfold PyStr.code. rewrite N_ascii_embedding by done.
    symmetry. apply N.eqb_refl.
  - symmetry. apply N.eqb_neq. intros <-. by rewrite code_embedding in Hne.
Qed.

Lemma safe_point_code wide a :
  safe_point (isalnum_point wide) (PyStr.code a) = safe_char a.
Proof.
  unfold safe_point, safe_char. rewrite isalnum_point_code.
  by rewrite <- (eqb_code a 32), <- (eqb_code a 45), <- (eqb_code a 95).
Qed.

Lemma class_point_code a : class_point (PyStr.code a) = title_class a.
Proof.
  unfold class_point, title_class, PyStr.ascii_alnum, PyStr.between.
  by rewrite <- (eqb_code a 32), <- (eqb_code a 45), <- (eqb_code a 95).
Qed.

Lemma safe_point_ascii wide c :
  (c < 128)%N →
  safe_point (isalnum_point wide) c = true → class_point c = true.
Proof.
  intros Hc. assert (PyStr.code (ascii_of_N c) = c) as Hcode.
  { unfold PyStr.code. rewrite N_ascii_embedding; [done|lia]. }
  assert (is_ascii (ascii_of_N c) = true) as Ha.
  { unfold is_ascii. rewrite Hcode. by apply N.ltb_lt. }
  rewrite <- Hcode.
  rewrite safe_point_code, class_point_code, safe_char_class.
  by rewrite (ascii_not_latin1 _ Ha), orb_false_r.
Qed.

Lemma points_take n s : points (PyStr.take n s) = take n (points s).
Proof.
  revert s. induction n as [|n IH]; intros [|c s]; try done.
  cbn [PyStr.take points take]. by rewrite IH.
Qed.

Lemma points_keep_chars f g s :
  (∀ a, g (PyStr.code a) = f a) →
  points (keep_chars f s) = List.filter g (points s).
Proof.
  intros H. induction s as [|c s IH]; [done|].
  cbn [keep_chars points List.filter]. rewrite H.
  destruct (f c); cbn [points]; by rewrite IH.
Qed.

Lemma points_rstrip g s :
  (∀ a, g (PyStr.code a) = PyStr.isspace a) →
  points (PyStr.rstrip s) = rstrip_points g (points s).
Proof.
  intros H. induction s as [|c s IH]; [done|].
  cbn [PyStr.rstrip points rstrip_points]. rewrite <- IH, H.
  destruct (PyStr.rstrip s); [by destruct (PyStr.isspace c)|done].
Qed.

Lemma points_clean_title wide_alnum wide_space title :
  points (PyStr.take 50 (PyStr.rstrip (keep_chars safe_char title)))
  = sanitize_points (isalnum_point wide_alnum) (isspace_point wide_space)
      (points title).
Proof.
  unfold sanitize_points.
  rewrite points_take, (points_rstrip (isspace_point wide_space)),
    (points_keep_chars _ (safe_point (isalnum_point wide_alnum))); [done|..].
  - apply safe_point_code.
  - apply isspace_point_code.
Qed.

(** ** Entries of a directory *)







Lemma prefix_app_l a b s :
  String.prefix (a ++ b) s = true → String.prefix a s = true.
Proof.
  revert s. induction a as [|c a IH]; intros s; [by destruct s|].
  rewrite append_cons. destruct s as [|d s]; [done|].
  cbn [String.prefix]. destruct (Ascii.ascii_dec c d); [apply IH|done].
Qed.

(** * The claims *)

(** C1 (the script departs from it).  The claim: after a non-empty page
    that comes with a cursor, the next page is fetched and its records
    reach the handler.  The script: on the three-page workspace one listing
    is made, [r1] and [r2] are handled, the cursor ["c1"] is saved, and
    the run completes with two recordings; [r3] and [r4] are never seen.
    More fuel for the loop changes nothing
    ([process_all_recordings_fuel], [stops_after_first_page]). *)
Theorem second_page_never_fetched :
  let run := main 5 (sample_env "n" three_pages details4) empty_world in
  fst run = Ok tt
  ∧ log (snd run)
    = [FetchingAll; FetchingPage 1; ProcessingPage 2;
       Processing 1 (JStr "One");
       Saved "recordings/2024/03/05/r1_One.json" "recordings"; Sleep 1000;
       Processing 2 (JStr "Two");
       Saved "recordings/2024/03/06/r2_Two.json" "recordings"; Sleep 1000;
       SavedCursorState 2; Sleep 500; Completed 2; RemovedCursorState]
  ∧ files (snd run) !! "recordings/2024/03/07/r3_Three.json" = None
  ∧ files (snd run) !! "recordings/2024/03/08/r4_Four.json" = None.
Proof. vm_compute. repeat split; reflexivity. Qed.

(** C2 (the claim fails as worded).  A saved checkpoint is found, the
    operator declines to resume, and the listing cannot be reached: the
    file is gone and the run ends with the error. *)
Lemma checkpoint_claim_fails : ¬ checkpoint_claim.
Proof.
  intros H.
  specialize (H 1%nat (sample_env "n" unreachable details) interrupted_world).
  assert (fst (main 1 (sample_env "n" unreachable details) interrupted_world)
          = Raise ConnectionError) as Hrun by (vm_compute; reflexivity).
  rewrite Hrun in H. discriminate H.
  - apply elem_of_dom. eexists. vm_compute. reflexivity.
  - apply not_elem_of_dom. vm_compute. reflexivity.
Qed.

(** C2, amended.  The checkpoint file disappears during a run only when
    a saved state was found and the operator declined to resume, or when
    the run ended without an error; so a run that ends with an exception,
    and in which no resume was declined, leaves the file on disk. *)
Theorem checkpoint_removed_only_on_decline_or_return fuel E w :
  cursor_state_file ∈ dom (files w) →
  cursor_state_file ∉ dom (files (snd (main fuel E w))) →
  resume_declined E w ∨ fst (main fuel E w) = Ok tt.
Proof.
  intros Hin.
  destruct (main fuel E w) as [o w'] eqn:Hm. cbn [fst snd].
  revert Hm. unfold main. mrun.
  destruct (api_token E) as [[|]|];
    [by intros [= <- <-]| |by intros [= <- <-]].
  mrun.
  destruct (load_cursor_state_run E
              (World (files w) (dirs w) (log w ++ [FetchingAll])))
    as (v & evs & Hload & Hv).
  cbn [files dirs log] in Hload, Hv.
  erewrite bind_ok by exact Hload.
  destruct (truthy v) eqn:Ht; cycle 1.
  { mrun. intros Hm Hout. right.
    match type of Hm with
    | sync_all _ ?n ?c _ ?w0 = _ =>
        pose proof (sync_all_removal fuel n c E w0 Hin) as Hs
    end.
    rewrite Hm in Hs. by apply Hs. }
  destruct Hv as [->|Hv]; [discriminate|].
  rewrite bind_assoc.
  destruct (py_getitem v "timestamp") as [ts|e|]; [|by intros [= <- <-]..].
  mrun. rewrite bind_assoc. mrun. rewrite bind_assoc.
  destruct (py_getitem v "processed_count") as [pc|e|] eqn:Hpc;
    [|by intros [= <- <-]..].
  mrun. rewrite bind_assoc. mrun. rewrite bind_assoc.
  unfold resume_requested at 1. rewrite bind_assoc. mrun.
  rewrite bind_assoc. mrun.
  destruct (String.eqb (PyStr.strip (PyStr.lower (answer E))) "y") eqn:Hy;
    [|intros _ _; left; split; [by exists v|done]].
  rewrite bind_assoc.
  destruct (py_getitem v "cursor") as [cur|e|]; [|by intros [= <- <-]..].
  mrun. rewrite bind_assoc. mrun.
  intros Hm Hout. right.
  match type of Hm with
  | sync_all _ ?n ?c _ ?w0 = _ =>
      pose proof (sync_all_removal fuel n c E w0 Hin) as Hs
  end.
  rewrite Hm in Hs. by apply Hs.
Qed.


Lemma checkpoint_removed_only_on_decline_or_return_witness :
  resume_declined (sample_env "n" unreachable details) interrupted_world
  ∨ fst (main 1 (sample_env "n" unreachable details) interrupted_world)
    = Ok tt.
Proof.
  apply (checkpoint_removed_only_on_decline_or_return 1
           (sample_env "n" unreachable details) interrupted_world).
  - apply elem_of_dom. eexists. vm_compute. reflexivity.
  - apply not_elem_of_dom. vm_compute. reflexivity.
Defined.

(** When the run returns normally the file is removed, whether or not
    pages are left: here the cursor ["c1"] had just been saved. *)
Lemma checkpoint_removed_with_pages_left :
  let run := main 5 (sample_env "n" three_pages details4) empty_world in
  In (SavedCursorState 2) (log (snd run))
  ∧ files (snd run) !! cursor_state_file = None.
Proof. vm_compute. split; [tauto|reflexivity]. Qed.

(** C3 (the script departs from it).  The claim: after a resume from a
    checkpoint with [processed_count = n], every later save records at
    least [n].  The script: resumed from the checkpoint of five
    recordings, the run handles [r3] under the index 6 and saves the
    count 1 (by [stops_after_first_page] the count saved is always the
    number of records of the page just handled). *)
Theorem resumed_count_restarts :
  let run := main 5 (sample_env "y" three_pages details4) interrupted_world in
  fst run = Ok tt
  ∧ log (snd run)
    = [FetchingAll; FoundSavedState (JStr "2024-03-31T08:00:00");
       AlreadyProcessed (JNum 5); Prompt; FetchingPage 1; ProcessingPage 1;
       Processing 6 (JStr "Three");
       Saved "recordings/2024/03/07/r3_Three.json" "recordings"; Sleep 1000;
       SavedCursorState 1; Sleep 500; Completed 1; RemovedCursorState].
Proof. vm_compute. split; reflexivity. Qed.

(** C4 (the claim fails as worded).  The detail of [r1] fails with a
    connection error; the run goes on with [r2] and ends normally. *)
Lemma transport_abort_claim_fails : ¬ transport_abort_claim.
Proof.
  intros H.
  specialize (H 0%nat (sample_env "n" three_pages (failing_r1 ConnectionError))
                empty_world
                (JObj [("recordings", JArr [rec1; rec2]); ("cursor", JStr "c1")])
                [rec1; rec2] fields1 (JStr "r1") ConnectionError).
  assert (fst (main 1 (sample_env "n" three_pages (failing_r1 ConnectionError))
                 empty_world) = Ok tt) as Hrun by (vm_compute; reflexivity).
  rewrite Hrun in H.
  enough (Ok tt = @Raise unit ConnectionError) by discriminate.
  apply H;
    [exact I | reflexivity | reflexivity | left; reflexivity | reflexivity
    | vm_compute; reflexivity | reflexivity].
Qed.

(** ** A detail fetch that fails *)

Section FetchFailure.

Context (E : env) (w : world) (n total : Z).
Context (kvs : list (string * json)) (rid : json) (rest : list json).

(** the record has an id and is not found on disk, so that its detail is
    requested *)
Hypothesis has_id : assoc "id" kvs = Some rid.
Hypothesis not_on_disk :
  found_on_disk E w rid (field kvs "start_datetime" JNull) = false.

(** C4, amended.  A detail fetch that fails with a transport error is
    caught by the handler of the record and logged; nothing reaches the
    caller, the record counts as processed, and the loop goes on with the
    rest of the page. *)
Theorem transport_error_is_logged e :
  is_transport e →
  remote_get E rid = Fails e →
  process_recording (JNum n) (JObj kvs) (total + 1) E w
  = (Ok tt, failure_logged w n total kvs e)
  ∧ for_each (process_recording (JNum n)) (JObj kvs :: rest) total E w
    = for_each (process_recording (JNum n)) rest (total + 1) E
        (failure_logged w n total kvs e).
Proof.
  intros _ Hget.
  pose proof (process_recording_fetch_fails E w n kvs (total + 1) rid e
                has_id not_on_disk Hget) as Hrec.
  split; [exact Hrec|]. by apply for_each_cons.
Qed.

(** C6.  A detail fetch that fails with 404 is caught by the handler of
    the record and logged; the record is skipped and the loop goes on with
    the records that follow it in the page. *)
Theorem not_found_is_skipped :
  remote_get E rid = Fails (HTTPError 404) →
  process_recording (JNum n) (JObj kvs) (total + 1) E w
  = (Ok tt, failure_logged w n total kvs (HTTPError 404))
  ∧ for_each (process_recording (JNum n)) (JObj kvs :: rest) total E w
    = for_each (process_recording (JNum n)) rest (total + 1) E
        (failure_logged w n total kvs (HTTPError 404)).
Proof.
  intros Hget.
  pose proof (process_recording_fetch_fails E w n kvs (total + 1) rid
                (HTTPError 404) has_id not_on_disk Hget) as Hrec.
  split; [exact Hrec|].
  cbn [for_each]. by erewrite bind_ok by exact Hrec.
Qed.

End FetchFailure.

Lemma transport_error_is_logged_witness :
  let E := sample_env "n" three_pages (failing_r1 ConnectionError) in
  let w' :=
    World ∅ ∅ [Processing 1 (JStr "One"); Error ConnectionError] in
  process_recording (JNum 0) rec1 1 E empty_world = (Ok tt, w')
  ∧ for_each (process_recording (JNum 0)) [rec1; rec2] 0 E empty_world
    = for_each (process_recording (JNum 0)) [rec2] 1 E w'.
Proof.
  apply (transport_error_is_logged
           (sample_env "n" three_pages (failing_r1 ConnectionError))
           empty_world 0 0 fields1 (JStr "r1") [rec2]).
  - reflexivity.
  - vm_compute. reflexivity.
  - exact I.
  - reflexivity.
Defined.

Lemma not_found_is_skipped_witness :
  let E := sample_env "n" three_pages (failing_r1 (HTTPError 404)) in
  let w' :=
    World ∅ ∅ [Processing 1 (JStr "One"); Error (HTTPError 404)] in
  process_recording (JNum 0) rec1 1 E empty_world = (Ok tt, w')
  ∧ for_each (process_recording (JNum 0)) [rec1; rec2] 0 E empty_world
    = for_each (process_recording (JNum 0)) [rec2] 1 E w'.
Proof.
  apply (not_found_is_skipped
           (sample_env "n" three_pages (failing_r1 (HTTPError 404)))
           empty_world 0 0 fields1 (JStr "r1") [rec2]).
  - reflexivity.
  - vm_compute. reflexivity.
  - reflexivity.
Defined.

(** C5 (the claim fails as worded).  An artifact of [r1] lies in the flat
    root and the listed record has no [start_datetime]: the claim answers
    true, the script skips the look-up and answers false. *)
Lemma existence_claim_fails : ¬ existence_claim.
Proof.
  intros H.
  destruct (H (sample_env "n" three_pages details) flat_world "r1" JNull)
    as [_ Hback].
  assert (fst (already_downloaded (JStr "r1") JNull
                 (sample_env "n" three_pages details) flat_world)
          = Ok false) as Hrun by (vm_compute; reflexivity).
  rewrite Hrun in Hback.
  enough (Ok false = Ok true) by discriminate.
  apply Hback. exists "r1_One.json". split; [|reflexivity].
  vm_compute. left. reflexivity.
Qed.

(** The look-up tests [f.startswith(recording_id)], without the
    underscore the writer puts after the id: an artifact of [r10] in the
    date directory makes it answer true for [r1].  The amended claim
    below says nothing of such directories. *)
Lemma prefix_without_underscore :
  fst (already_downloaded (JStr "r1") (JStr "2024-03-05T10:00:00Z")
         (sample_env "n" three_pages details) other_id_world)
  = Ok true.
Proof. vm_compute. reflexivity. Qed.

(** C5, amended.  The look-up never fails and leaves the disk as it is.
    It answers true only when the id is a string, the start is a
    non-empty string that parses, [recordings] exists and the date
    directory exists and can be listed.  In that situation it answers
    true when the directory has an entry whose name starts with the id
    and an underscore; and, in a directory where every name that starts
    with the id goes on with an underscore, only then.  When the start is
    missing or unparsable the look-up is skipped, the flat root is not
    searched: the answer is false and the record is downloaded. *)
Theorem already_downloaded_spec E w rid start :
  (∃ found evs,
     already_downloaded rid start E w
     = (Ok found, World (files w) (dirs w) (log w ++ evs)))
  ∧ (fst (already_downloaded rid start E w) = Ok true →
     ∃ id dt,
       rid = JStr id
       ∧ parsed_start E start = Some dt
       ∧ path_exists_in w "recordings" = true
       ∧ refused E (date_partition "recordings" dt) = false
       ∧ date_partition "recordings" dt ∈ dirs w
       ∧ ((∀ f, In f (entries w (date_partition "recordings" dt)) →
                PyStr.startswith f id = true →
                PyStr.startswith f (id ++ "_") = true) →
          ∃ f, In f (entries w (date_partition "recordings" dt))
               ∧ PyStr.startswith f (id ++ "_") = true))
  ∧ (∀ id dt,
       rid = JStr id →
       parsed_start E start = Some dt →
       path_exists_in w "recordings" = true →
       refused E (date_partition "recordings" dt) = false →
       date_partition "recordings" dt ∈ dirs w →
       (∃ f, In f (entries w (date_partition "recordings" dt))
             ∧ PyStr.startswith f (id ++ "_") = true) →
       fst (already_downloaded rid start E w) = Ok true)
  ∧ (parsed_start E start = None →
     already_downloaded rid start E w = (Ok false, w)).
Proof.
  destruct (already_downloaded_run E w rid start) as (evs & Hrun & Hevs).
  split; [by eexists _, evs|]. split; [|split].
  - rewrite Hrun. cbn [fst]. intros [= Hfound]. revert Hfound.
    unfold found_on_disk.
    destruct rid as [| | |id| |]; try discriminate.
    destruct (parsed_start E start) as [dt|]; [|discriminate].
    cbv zeta.
    intros [[[Hroot Href]%andb_true_iff Hdir]%andb_true_iff Hex]%andb_true_iff.
    exists id, dt. repeat split; try done.
    + by apply negb_true_iff.
    + by apply bool_decide_eq_true_1 in Hdir.
    + intros Hplain. apply existsb_exists in Hex as (f & Hf & Hp).
      exists f. split; [done|]. by apply Hplain.
  - intros id dt -> Hp Hroot Href Hdir (f & Hf & Hpre).
    rewrite Hrun. cbn [fst]. f_equal. unfold found_on_disk. rewrite Hp.
    cbv zeta. rewrite Hroot, Href, (bool_decide_eq_true_2 _ Hdir).
    cbn [negb andb]. apply existsb_exists. exists f. split; [done|].
    by apply (prefix_app_l id "_").
  - intros Hp.
    assert (found_on_disk E w rid start = false) as Hnot.
    { unfold found_on_disk. rewrite Hp. by destruct rid. }
    rewrite Hrun, Hnot, (Hevs Hnot). by rewrite world_eta.
Qed.

(** The look-up on the reference runtime: the artifact of [r1] in its
    date directory is found, that of [r2] is not there. *)
Lemma look_up_examples :
  let E := sample_env "n" three_pages details in
  In "r1_One.json" (entries downloaded_world "recordings/2024/03/05")
  ∧ PyStr.startswith "r1_One.json" ("r1" ++ "_") = true
  ∧ fst (already_downloaded (JStr "r1") (JStr "2024-03-05T10:00:00Z") E
           downloaded_world) = Ok true
  ∧ fst (already_downloaded (JStr "r2") (JStr "2024-03-05T10:00:00Z") E
           downloaded_world) = Ok false.
Proof. vm_compute. split; [by left|repeat split; reflexivity]. Qed.

(** After the record that was not found, the run saves the next one and
    ends normally. *)
Lemma run_after_not_found :
  let run :=
    main 1 (sample_env "n" three_pages (failing_r1 (HTTPError 404)))
      empty_world in
  fst run = Ok tt
  ∧ log (snd run)
    = [FetchingAll; FetchingPage 1; ProcessingPage 2;
       Processing 1 (JStr "One"); Error (HTTPError 404);
       Processing 2 (JStr "Two");
       Saved "recordings/2024/03/06/r2_Two.json" "recordings"; Sleep 1000;
       SavedCursorState 2; Sleep 500; Completed 2; RemovedCursorState].
Proof. vm_compute. split; reflexivity. Qed.

(** C7 (the claim fails as worded).  White space at the head of a title
    is kept. *)
Lemma sanitization_claim_fails : ¬ sanitization_claim.
Proof.
  intros H. destruct (H " a") as (c & Hc & _ & Ht & _).
  vm_compute in Hc. injection Hc as <-. vm_compute in Ht. discriminate.
Qed.

(** A letter outside ASCII is alphanumeric for [str.isalnum] and is kept
    (here U+00E9). *)
Lemma accented_letter_kept :
  clean_title (JStr (String (ascii_of_nat 233) EmptyString))
  = Ok (String (ascii_of_nat 233) EmptyString)
  ∧ title_class (ascii_of_nat 233) = false.
Proof. vm_compute. split; reflexivity. Qed.

(** C7, amended.  For every title string, over all of Unicode: the
    component is made of characters that [str.isalnum] accepts and of
    spaces, hyphens and underscores, which within ASCII is the class
    [[A-Za-z0-9 _-]], and it has at most 50 characters.  The characters
    kept are the component, then what the cut to 50 characters took away,
    then the white space that was stripped at the end: white space is
    stripped before the cut, so that a component of fewer than 50
    characters has none at its end, and nothing is taken from the head,
    where white space stays.  The sanitizer of the writer is this one on
    the strings of the model, and the title of the specification gives
    ["Q1 Review EngProduct"], within [[A-Za-z0-9 _-]]. *)
Theorem clean_title_sanitizes :
  (∀ (wide_alnum wide_space : N → bool) (title : list N),
      let alnum := isalnum_point wide_alnum in
      let space := isspace_point wide_space in
      let kept := List.filter (safe_point alnum) title in
      let component := sanitize_points alnum space title in
      Forall (λ c, safe_point alnum c = true) component
      ∧ Forall (λ c, (c < 128)%N → class_point c = true) component
      ∧ (length component ≤ 50)%nat
      ∧ (∃ cut stripped,
           kept = (component ++ cut ++ stripped)%list
           ∧ Forall (λ c, space c = true) stripped
           ∧ no_trailing_space space (component ++ cut)%list
           ∧ (cut = [] ∨ length component = 50%nat))
      ∧ ((length component < 50)%nat → no_trailing_space space component)
      ∧ (Forall (λ c, safe_point alnum c = true) title →
         no_trailing_space space title →
         (length title ≤ 50)%nat →
         component = title))
  ∧ (∀ wide_alnum wide_space title, ∃ component,
        clean_title (JStr title) = Ok component
        ∧ points component
          = sanitize_points (isalnum_point wide_alnum)
              (isspace_point wide_space) (points title))
  ∧ clean_title (JStr "Q1 Review: Eng/Product!!") = Ok "Q1 Review EngProduct"
  ∧ PyStr.all title_class "Q1 Review EngProduct" = true.
Proof.
  split; [|split; [|split; reflexivity]].
  - intros wide_alnum wide_space title alnum space kept component.
    destruct (rstrip_points_split space kept) as (stripped & Hkept & Hsp).
    pose proof (rstrip_points_end space kept) as Hend.
    assert (Hsafe : Forall (λ c, safe_point alnum c = true) component).
    { apply Forall_take. pose proof (Forall_filter_safe (safe_point alnum) title)
        as Hall. fold kept in Hall. rewrite Hkept in Hall.
      by apply Forall_app in Hall as [? _]. }
    assert (Hdec : ∃ cut,
               rstrip_points space kept = (component ++ cut)%list
               ∧ (cut = [] ∨ length component = 50%nat)).
    { exists (drop 50 (rstrip_points space kept)). split.
      - symmetry. apply take_drop.
      - destruct (decide (length (rstrip_points space kept) ≤ 50)%nat).
        + left. by apply drop_ge.
        + right. unfold component, sanitize_points. fold kept.
          rewrite List.length_firstn. lia. }
    destruct Hdec as (cut & Hcut & Hfull).
    assert (Hshort : (length component < 50)%nat →
                     no_trailing_space space component).
    { intros Hlt. destruct Hfull as [->|]; [|lia].
      by rewrite app_nil_r in Hcut; rewrite <- Hcut. }
    split; [exact Hsafe|]. split.
    { eapply Forall_impl; [exact Hsafe|]. intros c Hc Hlt.
      apply (safe_point_ascii wide_alnum); [exact Hlt|exact Hc]. }
    split.
    { unfold component, sanitize_points. rewrite List.length_firstn. lia. }
    split.
    { exists cut, stripped. rewrite app_assoc, <- Hcut.
      split; [exact Hkept|]. split; [exact Hsp|]. split; [exact Hend|done]. }
    split; [exact Hshort|].
    intros Hall Hno Hlen.
    assert (kept = title) as Hk.
    { unfold kept. clear -Hall. induction Hall as [|c l Hc _ IH]; [done|].
      cbn [List.filter]. by rewrite Hc, IH. }
    assert (rstrip_points space title = title) as Hr.
    { clear -Hno. induction title as [|c l IH]; [done|].
      cbn [rstrip_points]. destruct l as [|d l].
      - cbn. by rewrite (Hno c eq_refl).
      - rewrite IH; [done|]. intros x Hx. apply Hno.
        by rewrite last_cons_cons. }
    unfold component, sanitize_points. fold kept. rewrite Hk, Hr.
    by apply take_ge.
  - intros wide_alnum wide_space title. eexists.
    split; [apply clean_title_str|]. apply points_clean_title.
Qed.




(** The two cases of the specification on the reference runtime. *)
Lemma partition_examples :
  let E := sample_env "n" three_pages details in
  fst (save_recording_to_json
         (JObj [("id", JStr "r1"); ("title", JStr "One");
                ("start_datetime", JStr "2024-03-05T10:00:00Z")])
         "out" E empty_world)
  = Ok "out/2024/03/05/r1_One.json"
  ∧ fst (save_recording_to_json
           (JObj [("id", JStr "r1"); ("title", JStr "One")])
           "out" E empty_world)
    = Ok "out/r1_One.json"
  ∧ fst (save_recording_to_json
           (JObj [("id", JStr "r1"); ("title", JStr "One");
                  ("start_datetime", JStr "yesterday")])
           "out" E empty_world)
    = Ok "out/r1_One.json".
Proof. vm_compute. repeat split; reflexivity. Qed.

(** C9.  [load_cursor_state] never raises.  It returns [None] when there
    is no checkpoint file, and also when the content of the file does not
    parse, after a line on the output; in both cases [main] goes on as a
    fresh run. *)
Theorem load_cursor_state_tolerant E w :
  (∃ v evs,
     load_cursor_state E w
     = (Ok v, World (files w) (dirs w) (log w ++ evs)))
  ∧ (path_exists_in w cursor_state_file = false →
     load_cursor_state E w = (Ok JNull, w))
  ∧ (files w !! cursor_state_file = Some Garbage →
     ∃ e,
       load_cursor_state E w
       = (Ok JNull,
          World (files w) (dirs w) (log w ++ [ErrorLoadingCursorState e])))
  ∧ (∀ fuel token,
       api_token E = Some token → token ≠ "" →
       path_exists_in w cursor_state_file = false
       ∨ files w !! cursor_state_file = Some Garbage →
       ∃ evs,
         main fuel E w
         = sync_all fuel (JNum 0) JNull E
             (World (files w) (dirs w) (log w ++ FetchingAll :: evs))).
Proof.
  assert (Habsent : ∀ w0, path_exists_in w0 cursor_state_file = false →
                          load_cursor_state E w0 = (Ok JNull, w0)).
  { intros w0 H. unfold load_cursor_state. mrun. by rewrite H. }
  assert (Hcorrupt : ∀ w0, files w0 !! cursor_state_file = Some Garbage →
            ∃ e, load_cursor_state E w0
                 = (Ok JNull,
                    World (files w0) (dirs w0)
                      (log w0 ++ [ErrorLoadingCursorState e]))).
  { intros w0 H. unfold load_cursor_state. mrun.
    assert (path_exists_in w0 cursor_state_file = true) as ->.
    { unfold path_exists_in. rewrite (bool_decide_eq_true_2 (_ ∈ dom _)).
      - apply orb_true_r.
      - apply elem_of_dom. by eexists. }
    unfold try_except, read_json.
    destruct (refused E cursor_state_file); [mrun; by eexists|].
    rewrite H. mrun. by eexists. }
  split; [|split; [|split]].
  - destruct (load_cursor_state_run E w) as (v & evs & H & _). by exists v, evs.
  - apply Habsent.
  - apply Hcorrupt.
  - intros fuel token Htok Hne Hcase. unfold main. mrun. rewrite Htok.
    destruct token as [|c token]; [done|]. mrun.
    destruct Hcase as [H|H].
    + erewrite bind_ok by (apply Habsent; exact H).
      cbn [truthy]. mrun. by exists [].
    + destruct (Hcorrupt (World (files w) (dirs w) (log w ++ [FetchingAll])) H)
        as [e He].
      erewrite bind_ok by exact He. cbn [truthy]. mrun.
      exists [ErrorLoadingCursorState e]. by rewrite <- app_assoc.
Qed.

(** A checkpoint file that does not parse: the run starts afresh, after
    a line on the output, and ends normally. *)
Lemma corrupt_checkpoint_run :
  let run :=
    main 1 (sample_env "y" three_pages details4)
      (World {[ cursor_state_file := Garbage ]} ∅ []) in
  fst run = Ok tt
  ∧ firstn 3 (log (snd run))
    = [FetchingAll; ErrorLoadingCursorState JSONDecodeError; FetchingPage 1].
Proof. vm_compute. split; reflexivity. Qed.




(** * Further properties of the script *)

(** ** The checkpoint store *)

Lemma load_cursor_state_json E w v :
  files w !! cursor_state_file = Some (Json v) →
  refused E cursor_state_file = false →
  load_cursor_state E w = (Ok v, w).
Proof.
  intros Hf Href. unfold load_cursor_state. mrun.
  assert (path_exists_in w cursor_state_file = true) as ->.
  { unfold path_exists_in. rewrite (bool_decide_eq_true_2 (_ ∈ dom _)).
    - apply orb_true_r.
    - apply elem_of_dom. by eexists. }
  unfold try_except, read_json. by rewrite Href, Hf.
Qed.

(** X1.  What [save_cursor_state] writes, [load_cursor_state] reads back:
    the cursor, the count and the time of the save.  A second save
    replaces the first: the file holds the last state only. *)
Theorem checkpoint_round_trip E w c1 n1 c2 n2 :
  refused E cursor_state_file = false →
  ∃ w1 w2,
    save_cursor_state c1 n1 E w = (Ok tt, w1)
    ∧ load_cursor_state E w1 = (Ok (checkpoint_of E c1 n1), w1)
    ∧ save_cursor_state c2 n2 E w1 = (Ok tt, w2)
    ∧ load_cursor_state E w2 = (Ok (checkpoint_of E c2 n2), w2)
    ∧ files w2 = <[cursor_state_file := Json (checkpoint_of E c2 n2)]> (files w)
    ∧ dirs w2 = dirs w.
Proof.
  intros Href.
  assert (Hsave : ∀ c n w0,
            save_cursor_state c n E w0
            = (Ok tt,
               World (<[cursor_state_file := Json (checkpoint_of E c n)]>
                        (files w0))
                 (dirs w0) (log w0 ++ [SavedCursorState n]))).
  { intros c n w0. unfold save_cursor_state. mnorm.
    erewrite bind_ok by by apply write_json_ok. by mnorm. }
  eexists _, _. split; [apply Hsave|].
  split; [apply load_cursor_state_json; [apply lookup_insert_eq|done]|].
  split; [apply Hsave|].
  split; [apply load_cursor_state_json; [apply lookup_insert_eq|done]|].
  cbn [files dirs]. split; [apply insert_insert_eq|done].
Qed.

Lemma checkpoint_round_trip_witness :
  ∃ w1 w2,
    save_cursor_state (JStr "c1") 2 (sample_env "n" three_pages details)
      empty_world = (Ok tt, w1)
    ∧ load_cursor_state (sample_env "n" three_pages details) w1
      = (Ok (checkpoint_of (sample_env "n" three_pages details) (JStr "c1") 2),
         w1)
    ∧ save_cursor_state (JStr "c2") 3 (sample_env "n" three_pages details) w1
      = (Ok tt, w2)
    ∧ load_cursor_state (sample_env "n" three_pages details) w2
      = (Ok (checkpoint_of (sample_env "n" three_pages details) (JStr "c2") 3),
         w2)
    ∧ files w2
      = <[cursor_state_file :=
            Json (checkpoint_of (sample_env "n" three_pages details)
                    (JStr "c2") 3)]> (files empty_world)
    ∧ dirs w2 = dirs empty_world.
Proof.
  apply (checkpoint_round_trip (sample_env "n" three_pages details)
           empty_world (JStr "c1") 2 (JStr "c2") 3).
  reflexivity.
Defined.

(** ** One turn of the pagination *)

(** X2.  A listing without recordings (the key is missing, or its value
    is empty or [null]) ends [process_all_recordings] at once: it returns
    0, the handler is not called, and nothing is written. *)
Theorem empty_listing_ends_run fuel cb c E w response recordings :
  remote_list E (if truthy c then c else JNull) = Reply response →
  py_get response "recordings" (JArr []) = Ok recordings →
  truthy recordings = false →
  process_all_recordings (S fuel) cb c E w
  = (Ok 0%Z, printed w [FetchingPage 1]).
Proof.
  intros Hlist Hrecs Hempty.
  rewrite process_all_recordings_fuel.
  unfold process_all_recordings. cbn [while_true].
  unfold page_step, list_recordings. mnorm.
  rewrite Hlist. cbn [call]. mnorm. rewrite Hrecs. mnorm.
  rewrite Hempty. cbn [negb]. by mnorm.
Qed.

Lemma empty_listing_ends_run_witness :
  process_all_recordings 3 (process_recording (JNum 0)) JNull
    (sample_env "n" no_recordings details) empty_world
  = (Ok 0%Z, printed empty_world [FetchingPage 1]).
Proof.
  apply (empty_listing_ends_run 2 (process_recording (JNum 0)) JNull
           (sample_env "n" no_recordings details) empty_world
           (JObj []) (JArr [])).
  - reflexivity.
  - reflexivity.
  - reflexivity.
Defined.

(** X3.  A page that comes without a cursor (or with an empty one) is
    the last: its records are handled in order, their number is returned,
    and no checkpoint is written. *)
Theorem last_page_writes_no_checkpoint fuel cb c E w response page cur n w1 :
  remote_list E (if truthy c then c else JNull) = Reply response →
  py_get response "recordings" (JArr []) = Ok (JArr page) →
  page ≠ [] →
  py_get response "cursor" JNull = Ok cur →
  truthy cur = false →
  for_each cb page 0 E
    (printed w [FetchingPage 1; ProcessingPage (Z.of_nat (length page))])
  = (Ok n, w1) →
  n = Z.of_nat (length page)
  ∧ process_all_recordings (S fuel) cb c E w = (Ok n, w1).
Proof.
  intros Hlist Hrecs Hne Hcur Hfalsy Hfor.
  split; [by apply for_each_total in Hfor|].
  rewrite process_all_recordings_fuel.
  unfold process_all_recordings. cbn [while_true].
  unfold page_step, list_recordings. mnorm.
  rewrite Hlist. cbn [call]. mnorm. rewrite Hrecs. mnorm.
  destruct page as [|r page]; [done|]. cbn [truthy negb py_len py_iter].
  mnorm. rewrite <- app_assoc. cbn [app].
  unfold printed in Hfor. erewrite bind_ok by exact Hfor.
  rewrite Hcur. mnorm. rewrite Hfalsy. cbn [negb]. by mnorm.
Qed.

Lemma last_page_writes_no_checkpoint_witness :
  ∃ w1,
    2%Z = Z.of_nat (length [rec1; rec2])
    ∧ process_all_recordings 1 (process_recording (JNum 0)) JNull
        (sample_env "n" last_page details) empty_world
      = (Ok 2%Z, w1).
Proof.
  eexists.
  apply (last_page_writes_no_checkpoint 0 (process_recording (JNum 0))
           JNull (sample_env "n" last_page details) empty_world
           (JObj [("recordings", JArr [rec1; rec2])]) [rec1; rec2] JNull).
  - reflexivity.
  - reflexivity.
  - discriminate.
  - reflexivity.
  - reflexivity.
  - vm_compute. reflexivity.
Defined.

(** X4.  The checkpoint of a page is written once all its records have
    been handled, and it can be read back: after a non-empty page that
    came with a cursor, [load_cursor_state] returns that cursor, the
    number of records of the page and the time of the save. *)
Theorem page_checkpoint_is_readable fuel cb c E w response page cur n w1 :
  remote_list E (if truthy c then c else JNull) = Reply response →
  py_get response "recordings" (JArr []) = Ok (JArr page) →
  page ≠ [] →
  py_get response "cursor" JNull = Ok cur →
  truthy cur = true →
  refused E cursor_state_file = false →
  for_each cb page 0 E
    (printed w [FetchingPage 1; ProcessingPage (Z.of_nat (length page))])
  = (Ok n, w1) →
  ∃ w2,
    process_all_recordings (S fuel) cb c E w = (Ok n, w2)
    ∧ load_cursor_state E w2
      = (Ok (checkpoint_of E cur (Z.of_nat (length page))), w2)
    ∧ dirs w2 = dirs w1
    ∧ log w2 = (log w1 ++ [SavedCursorState n; Sleep 500])%list.
Proof.
  intros Hlist Hrecs Hne Hcur Htruthy Hfs Hfor.
  destruct (stops_after_first_page fuel cb c E w response page cur n w1
              Hlist Hrecs Hne Hcur Htruthy Hfs Hfor) as [Hn Hrun].
  eexists. split; [exact Hrun|]. split; [|done].
  rewrite <- Hn. apply load_cursor_state_json; [|done].
  cbn [files]. apply lookup_insert_eq.
Qed.

Lemma page_checkpoint_is_readable_witness :
  ∃ w2,
    process_all_recordings 4 (process_recording (JNum 0)) JNull
      (sample_env "n" three_pages details) empty_world = (Ok 2%Z, w2)
    ∧ load_cursor_state (sample_env "n" three_pages details) w2
      = (Ok (checkpoint_of (sample_env "n" three_pages details) (JStr "c1")
               (Z.of_nat (length [rec1; rec2]))), w2)
    ∧ dirs w2
      = dirs (snd (for_each (process_recording (JNum 0)) [rec1; rec2] 0
                     (sample_env "n" three_pages details)
                     (printed empty_world
                        [FetchingPage 1; ProcessingPage 2])))
    ∧ log w2
      = (log (snd (for_each (process_recording (JNum 0)) [rec1; rec2] 0
                     (sample_env "n" three_pages details)
                     (printed empty_world
                        [FetchingPage 1; ProcessingPage 2])))
         ++ [SavedCursorState 2; Sleep 500])%list.
Proof.
  apply (page_checkpoint_is_readable 3 (process_recording (JNum 0)) JNull
           (sample_env "n" three_pages details) empty_world
           (JObj [("recordings", JArr [rec1; rec2]); ("cursor", JStr "c1")])
           [rec1; rec2] (JStr "c1")).
  - reflexivity.
  - reflexivity.
  - discriminate.
  - reflexivity.
  - reflexivity.
  - reflexivity.
  - vm_compute. reflexivity.
Defined.

(** X5.  A listing that fails is not caught by [process_all_recordings]:
    the error leaves it before any record is handled, and the handler of
    [main] reports it, prints the hint about resuming and raises it
    again.  What is on disk, a checkpoint included, stays as it was. *)
Theorem listing_failure_propagates fuel starting_count c E w e :
  remote_list E (if truthy c then c else JNull) = Fails e →
  process_all_recordings (S fuel) (process_recording starting_count) c E w
  = (Raise e, printed w [FetchingPage 1])
  ∧ sync_all (S fuel) starting_count c E w
    = (Raise e,
       printed w [FetchingPage 1; ErrorDuringProcessing e; ResumeHint]).
Proof.
  intros Hlist.
  assert (process_all_recordings (S fuel) (process_recording starting_count)
            c E w = (Raise e, printed w [FetchingPage 1])) as Hrun.
  { rewrite process_all_recordings_fuel.
    unfold process_all_recordings. cbn [while_true].
    unfold page_step, list_recordings. mnorm.
    rewrite Hlist. cbn [call]. by mnorm. }
  split; [exact Hrun|].
  unfold sync_all, try_except. erewrite bind_raise by exact Hrun.
  mnorm. unfold raise, printed. cbn. by rewrite <- !app_assoc.
Qed.

Lemma listing_failure_propagates_witness :
  process_all_recordings 1 (process_recording (JNum 0)) JNull
    (sample_env "n" unreachable details) interrupted_world
  = (Raise ConnectionError, printed interrupted_world [FetchingPage 1])
  ∧ sync_all 1 (JNum 0) JNull (sample_env "n" unreachable details)
      interrupted_world
    = (Raise ConnectionError,
       printed interrupted_world
         [FetchingPage 1; ErrorDuringProcessing ConnectionError; ResumeHint]).
Proof.
  apply (listing_failure_propagates 0 (JNum 0) JNull
           (sample_env "n" unreachable details) interrupted_world
           ConnectionError).
  reflexivity.
Defined.

(** X6.  A resume cursor that is falsy (an empty string, [None], 0, an
    empty list) is not sent: the run is the run from the first page. *)
Theorem falsy_cursor_restarts fuel cb c E w :
  truthy c = false →
  process_all_recordings fuel cb c E w
  = process_all_recordings fuel cb JNull E w.
Proof.
  intros Hc. destruct fuel as [|fuel]; [reflexivity|].
  rewrite !(process_all_recordings_fuel fuel).
  unfold process_all_recordings. cbn [while_true].
  unfold page_step, list_recordings. mnorm. rewrite Hc. cbn [truthy].
  destruct (remote_list E JNull) as [response|e]; cbn [call]; mnorm;
    [|reflexivity].
  destruct (py_get response "recordings" (JArr [])) as [recordings|e|];
    mnorm; [|reflexivity..].
  destruct (negb (truthy recordings)); [by mnorm|reflexivity].
Qed.

Lemma falsy_cursor_restarts_witness :
  process_all_recordings 2 (process_recording (JNum 0)) (JStr "")
    (sample_env "n" three_pages details) empty_world
  = process_all_recordings 2 (process_recording (JNum 0)) JNull
      (sample_env "n" three_pages details) empty_world.
Proof.
  apply (falsy_cursor_restarts 2 (process_recording (JNum 0)) (JStr "")
           (sample_env "n" three_pages details) empty_world).
  reflexivity.
Defined.

(** ** The loop over the records of a page *)

(** X7.  The loop hands every record of the page to the callback, in
    page order and with the running index: when the loop over [pre ++ r
    :: post] ends normally, the records of [pre] were handled first, then
    the callback was run on [r] with the index [total + |pre| + 1] in the
    world they left, and the loop went on with [post] from the world the
    callback left; the counter returned is [total] plus the number of
    records. *)
Theorem for_each_counts cb pre r post total E w n w' :
  for_each cb (pre ++ r :: post) total E w = (Ok n, w') →
  ∃ w1 w2,
    for_each cb pre total E w = (Ok (total + Z.of_nat (length pre))%Z, w1)
    ∧ cb r (total + Z.of_nat (length pre) + 1)%Z E w1 = (Ok tt, w2)
    ∧ for_each cb post (total + Z.of_nat (length pre) + 1)%Z E w2 = (Ok n, w')
    ∧ n = (total + Z.of_nat (length pre) + 1 + Z.of_nat (length post))%Z.
Proof.
  revert total w. induction pre as [|r0 pre IH]; intros total w;
    cbn [app length for_each].
  - change (Z.of_nat 0) with 0%Z. rewrite !Z.add_0_r.
    unfold bind at 1. destruct (cb r (total + 1)%Z E w) as [[[]|e|] w2] eqn:Hcb;
      [|discriminate..].
    intros H. exists w, w2. split; [done|]. split; [done|]. split; [done|].
    apply for_each_total in H. lia.
  - replace (total + Z.of_nat (S (length pre)))%Z
      with (total + 1 + Z.of_nat (length pre))%Z by lia.
    unfold bind at 1.
    destruct (cb r0 (total + 1)%Z E w) as [[[]|e|] w0] eqn:Hcb;
      [|discriminate..].
    intros H. destruct (IH _ _ H) as (w1 & w2 & Hpre & Hr & Hpost & Hn).
    exists w1, w2. split; [|done].
    by erewrite bind_ok by exact Hcb.
Qed.

Lemma for_each_counts_witness :
  ∃ w1 w2,
    for_each (process_recording (JNum 0)) [rec1] 0
      (sample_env "n" three_pages details) empty_world
    = (Ok (0 + Z.of_nat (length [rec1]))%Z, w1)
    ∧ process_recording (JNum 0) rec2 (0 + Z.of_nat (length [rec1]) + 1)%Z
        (sample_env "n" three_pages details) w1
      = (Ok tt, w2)
    ∧ for_each (process_recording (JNum 0)) [rec3]
        (0 + Z.of_nat (length [rec1]) + 1)%Z
        (sample_env "n" three_pages details) w2
      = (Ok 3%Z,
         snd (for_each (process_recording (JNum 0)) [rec1; rec2; rec3] 0
                (sample_env "n" three_pages details) empty_world))
    ∧ 3%Z = (0 + Z.of_nat (length [rec1]) + 1 + Z.of_nat (length [rec3]))%Z.
Proof.
  apply (for_each_counts (process_recording (JNum 0)) [rec1] rec2 [rec3] 0
           (sample_env "n" three_pages details) empty_world).
  vm_compute. reflexivity.
Defined.

(** X8.  The loop has no handler of its own: when the callback raises
    for a record, the records after it are not handled, the counter is
    lost, and the exception leaves the loop. *)
Theorem for_each_aborts cb pre r post total E w w1 e w2 :
  for_each cb pre total E w = (Ok (total + Z.of_nat (length pre))%Z, w1) →
  cb r (total + Z.of_nat (length pre) + 1)%Z E w1 = (Raise e, w2) →
  for_each cb (pre ++ r :: post) total E w = (Raise e, w2).
Proof.
  revert total w. induction pre as [|r0 pre IH]; intros total w;
    cbn [app length for_each].
  - change (Z.of_nat 0) with 0%Z. rewrite !Z.add_0_r.
    intros [= <-] Hcb. by erewrite bind_raise by exact Hcb.
  - replace (total + Z.of_nat (S (length pre)))%Z
      with (total + 1 + Z.of_nat (length pre))%Z by lia.
    intros Hpre Hr. unfold bind in Hpre.
    destruct (cb r0 (total + 1)%Z E w) as [[[]|e0|] w0] eqn:Hcb;
      [|discriminate..].
    erewrite bind_ok by exact Hcb. by apply IH.
Qed.

Lemma for_each_aborts_witness :
  for_each (process_recording (JNum 0)) ([rec1] ++ JStr "r2" :: [rec3]) 0
    (sample_env "n" three_pages details) empty_world
  = (Raise AttributeError,
     snd (for_each (process_recording (JNum 0)) [rec1] 0
            (sample_env "n" three_pages details) empty_world)).
Proof.
  eapply (for_each_aborts (process_recording (JNum 0)) [rec1] (JStr "r2")
            [rec3] 0 (sample_env "n" three_pages details) empty_world).
  - vm_compute. reflexivity.
  - vm_compute. reflexivity.
Defined.

(** ** Computations that end *)

Create HintDb halts.

Lemma halts_ret {A} (a : A) : halts (ret a).
Proof. by intros E w. Qed.

Lemma halts_raise {A} e : halts (@raise A e).
Proof. by intros E w. Qed.

Lemma halts_lift {A} (o : outcome A) : o ≠ Timeout → halts (lift o).
Proof. by intros H E w. Qed.

Lemma halts_ask : halts ask.
Proof. by intros E w. Qed.

Lemma halts_print ev : halts (print ev).
Proof. by intros E w. Qed.

Lemma halts_sleep ms : halts (sleep ms).
Proof. by intros E w. Qed.

Lemma halts_path_exists p : halts (path_exists p).
Proof. by intros E w. Qed.

Lemma halts_makedirs p : halts (makedirs p).
Proof. intros E w. unfold makedirs. by destruct (refused E p). Qed.

Lemma halts_listdir p : halts (listdir p).
Proof.
  intros E w. unfold listdir.
  by destruct (refused E p), (bool_decide (p ∈ dirs w)).
Qed.

Lemma halts_write_json p v : halts (write_json p v).
Proof. intros E w. unfold write_json. by destruct (refused E p). Qed.

Lemma halts_read_json p : halts (read_json p).
Proof.
  intros E w. unfold read_json. destruct (refused E p); [done|].
  by destruct (files w !! p) as [[]|].
Qed.

Lemma halts_remove p : halts (remove p).
Proof.
  intros E w. unfold remove. destruct (refused E p); [done|].
  by destruct (files w !! p).
Qed.

Lemma halts_call r : halts (call r).
Proof. by destruct r; intros E w. Qed.

Lemma halts_bind {A B} (m : M A) (k : A → M B) :
  halts m → (∀ a, halts (k a)) → halts (bind m k).
Proof.
  intros Hm Hk E w. unfold bind. specialize (Hm E w).
  destruct (m E w) as [[a|e|] w1]; cbn in *; [apply Hk|done..].
Qed.

Lemma halts_try {A} (m : M A) h :
  halts m → (∀ e, halts (h e)) → halts (try_except m h).
Proof.
  intros Hm Hh E w. unfold try_except. specialize (Hm E w).
  destruct (m E w) as [[a|e|] w1]; cbn in *; [done|apply Hh|done].
Qed.

Lemma py_get_ends d k v : py_get d k v ≠ Timeout.
Proof. by destruct d. Qed.

Lemma py_getitem_ends d k : py_getitem d k ≠ Timeout.
Proof. destruct d; try done. cbn. by destruct (assoc k kvs). Qed.

Lemma py_len_ends v : py_len v ≠ Timeout.
Proof. by destruct v. Qed.

Lemma py_iter_ends v : py_iter v ≠ Timeout.
Proof. by destruct v. Qed.

Lemma py_add_int_ends v i : py_add_int v i ≠ Timeout.
Proof. by destruct v. Qed.

Lemma keep_safe_ends items : keep_safe items ≠ Timeout.
Proof.
  induction items as [|[] items IH]; try done. cbn.
  by destruct (keep_safe items).
Qed.

Lemma clean_title_ends title : clean_title title ≠ Timeout.
Proof.
  unfold clean_title. pose proof (py_iter_ends title).
  destruct (py_iter title) as [items| |]; try done.
  pose proof (keep_safe_ends items). by destruct (keep_safe items).
Qed.

#[local] Hint Resolve halts_ret halts_raise halts_ask halts_print halts_sleep
  halts_path_exists halts_makedirs halts_listdir halts_write_json
  halts_read_json halts_remove halts_call py_get_ends py_getitem_ends
  py_len_ends py_iter_ends py_add_int_ends clean_title_ends : halts.

Ltac halts_step :=
  match goal with
  | |- halts (bind _ _) => apply halts_bind; [|intros ?]
  | |- halts (try_except _ _) => apply halts_try; [|intros ?]
  | |- halts (lift _) => apply halts_lift
  | |- halts (if ?b then _ else _) => destruct b
  | |- halts (match ?x with _ => _ end) => destruct x
  | |- _ => solve [auto with halts]
  end.

Ltac halts_tac := repeat halts_step.

Lemma halts_get_recording id : halts (get_recording id).
Proof. unfold get_recording. halts_tac. Qed.

Lemma halts_list_recordings c : halts (list_recordings c).
Proof. unfold list_recordings. halts_tac. Qed.

Lemma halts_save_cursor_state c n : halts (save_cursor_state c n).
Proof. unfold save_cursor_state. halts_tac. Qed.

Lemma halts_load_cursor_state : halts load_cursor_state.
Proof. unfold load_cursor_state. halts_tac. Qed.

Lemma halts_parse_start_datetime s : halts (parse_start_datetime s).
Proof. unfold parse_start_datetime. halts_tac. Qed.

#[local] Hint Resolve halts_get_recording halts_list_recordings
  halts_save_cursor_state halts_load_cursor_state
  halts_parse_start_datetime : halts.

Lemma halts_save_recording_to_json r root :
  halts (save_recording_to_json r root).
Proof. unfold save_recording_to_json. halts_tac. Qed.

Lemma halts_already_downloaded id s : halts (already_downloaded id s).
Proof. unfold already_downloaded. halts_tac. Qed.

#[local] Hint Resolve halts_save_recording_to_json halts_already_downloaded
  : halts.

Lemma halts_process_recording n r i : halts (process_recording n r i).
Proof. unfold process_recording. halts_tac. Qed.

Lemma halts_for_each cb rs n :
  (∀ r i, halts (cb r i)) → halts (for_each cb rs n).
Proof.
  intros Hcb. revert n. induction rs as [|r rs IH]; intros n; cbn.
  - apply halts_ret.
  - apply halts_bind; [apply Hcb|intros _; apply IH].
Qed.

Lemma halts_page_step cb st :
  (∀ r i, halts (cb r i)) → halts (page_step cb st).
Proof.
  intros Hcb. destruct st as [[c t] p]. unfold page_step.
  pose proof (halts_for_each cb) as Hfor.
  halts_tac; auto with halts.
Qed.

Lemma halts_process_all_recordings fuel cb c :
  (∀ r i, halts (cb r i)) → halts (process_all_recordings (S fuel) cb c).
Proof.
  intros Hcb E w. rewrite process_all_recordings_fuel.
  unfold process_all_recordings. cbn [while_true]. rewrite bind_assoc.
  pose proof (halts_page_step cb (c, 0%Z, 1%Z) Hcb E w) as Hstep.
  bind_case Hp; cbn in Hstep; [|done..].
  destruct (page_step_breaks _ _ _ _ _ _ Hp) as [s ->]. by mnorm.
Qed.

(** ** The handler of a record *)

(** X9.  For a record that is a JSON object, and a starting count that
    is an integer, [process_recording] always returns normally: whatever
    the look-up, the fetch or the write raise is printed and dropped, so
    that a page of objects is always handled to its end.  It removes
    nothing from the disk. *)
Theorem process_recording_never_raises n kvs index E w :
  ∃ w',
    process_recording (JNum n) (JObj kvs) index E w = (Ok tt, w')
    ∧ grows w w'.
Proof.
  pose proof (keeps_process_recording (JNum n) (JObj kvs) index E w) as Hg.
  pose proof (halts_process_recording (JNum n) (JObj kvs) index E w) as Hh.
  revert Hg Hh. unfold process_recording.
  cbn [py_add_int py_get]. mnorm. unfold try_except.
  match goal with
  | |- context [match ?m E ?w0 with _ => _ end] =>
      destruct (m E w0) as [[[]|e|] w1]
  end; cbn; [by eexists|by eexists|done].
Qed.

(** X10.  A record that is not a JSON object makes the handler raise
    [AttributeError] outside its [try]: the run is aborted at this
    record, the records after it are not handled, and [main]'s handler
    reports the error and raises it again. *)
Theorem malformed_record_aborts_run fuel n c E w response r rest :
  remote_list E (if truthy c then c else JNull) = Reply response →
  py_get response "recordings" (JArr []) = Ok (JArr (r :: rest)) →
  (∀ kvs, r ≠ JObj kvs) →
  sync_all (S fuel) (JNum n) c E w
  = (Raise AttributeError,
     printed w
       [FetchingPage 1; ProcessingPage (Z.of_nat (length (r :: rest)));
        ErrorDuringProcessing AttributeError; ResumeHint]).
Proof.
  intros Hlist Hrecs Hr.
  assert (Hrec : ∀ i w0,
            process_recording (JNum n) r i E w0 = (Raise AttributeError, w0)).
  { intros i w0. unfold process_recording. cbn [py_add_int]. mnorm.
    assert (py_get r "title" (JStr "Untitled") = Raise AttributeError) as ->.
    { destruct r; try reflexivity. by destruct (Hr kvs). }
    by mnorm. }
  assert (process_all_recordings (S fuel) (process_recording (JNum n)) c E w
          = (Raise AttributeError,
             printed w
               [FetchingPage 1;
                ProcessingPage (Z.of_nat (length (r :: rest)))])) as Hrun.
  { rewrite process_all_recordings_fuel.
    unfold process_all_recordings. cbn [while_true].
    unfold page_step, list_recordings. mnorm.
    rewrite Hlist. cbn [call]. mnorm. rewrite Hrecs. mnorm.
    cbn [truthy negb py_len py_iter]. mnorm. cbn [for_each]. mnorm.
    erewrite bind_raise by apply Hrec.
    unfold printed. by rewrite <- app_assoc. }
  unfold sync_all, try_except. erewrite bind_raise by exact Hrun.
  mnorm. unfold raise, printed. cbn. by rewrite <- !app_assoc.
Qed.

Lemma malformed_record_aborts_run_witness :
  sync_all 1 (JNum 0) JNull
    (sample_env "n"
       (λ _, Reply (JObj [("recordings", JArr [JStr "r1"; rec2])])) details)
    empty_world
  = (Raise AttributeError,
     printed empty_world
       [FetchingPage 1; ProcessingPage 2;
        ErrorDuringProcessing AttributeError; ResumeHint]).
Proof.
  apply (malformed_record_aborts_run 0 0 JNull
           (sample_env "n"
              (λ _, Reply (JObj [("recordings", JArr [JStr "r1"; rec2])]))
              details)
           empty_world
           (JObj [("recordings", JArr [JStr "r1"; rec2])]) (JStr "r1") [rec2]).
  - reflexivity.
  - reflexivity.
  - discriminate.
Defined.

Lemma already_downloaded_found E w rid start :
  found_on_disk E w rid start = true →
  ∃ rel,
    already_downloaded rid start E w
    = (Ok true, printed w [AlreadyDownloaded rel]).
Proof.
  unfold found_on_disk.
  destruct rid as [| | |id| |]; try discriminate.
  destruct (parsed_start E start) as [dt|] eqn:Hp; [|discriminate].
  cbv zeta.
  intros [[[Hroot Href]%andb_true_iff Hdir]%andb_true_iff Hex]%andb_true_iff.
  apply negb_true_iff in Href. apply bool_decide_eq_true_1 in Hdir.
  unfold already_downloaded. mnorm.
  rewrite (truthy_parsed _ _ _ Hp), Hroot. cbn [andb]. unfold try_except.
  erewrite bind_ok by by apply parse_start_datetime_some.
  cbv zeta. mnorm.
  assert (path_exists_in w (date_partition "recordings" dt) = true) as ->.
  { unfold path_exists_in. by rewrite (bool_decide_eq_true_2 _ Hdir). }
  erewrite bind_ok by by apply listdir_ok.
  mnorm. rewrite filter_existsb in Hex.
  destruct (List.filter _ (entries w (date_partition "recordings" dt)))
    as [|f fs]; [discriminate|].
  mnorm. by eexists.
Qed.

(** X11.  A record that the look-up finds on disk is skipped: its detail
    is not requested, nothing is written, no delay is taken; one line
    names the file found. *)
Theorem downloaded_record_is_skipped E w n kvs index rid :
  assoc "id" kvs = Some rid →
  found_on_disk E w rid (field kvs "start_datetime" JNull) = true →
  ∃ rel,
    process_recording (JNum n) (JObj kvs) index E w
    = (Ok tt,
       printed w
         [Processing (n + index) (field kvs "title" (JStr "Untitled"));
          AlreadyDownloaded rel]).
Proof.
  intros Hid Hfound.
  destruct (already_downloaded_found E
              (printed w [Processing (n + index)
                            (field kvs "title" (JStr "Untitled"))])
              rid _ Hfound) as [rel Hrun].
  exists rel. unfold process_recording.
  cbn [py_add_int py_get py_getitem]. rewrite Hid. mnorm.
  fold (field kvs "title" (JStr "Untitled")).
  fold (field kvs "start_datetime" JNull).
  unfold try_except. mnorm.
  unfold printed in Hrun. cbn [files dirs log] in Hrun.
  erewrite bind_ok by exact Hrun.
  unfold ret, printed. by rewrite <- app_assoc.
Qed.

Lemma downloaded_record_is_skipped_witness :
  ∃ rel,
    process_recording (JNum 0) (JObj fields1) 1
      (sample_env "n" three_pages (failing_r1 ConnectionError))
      downloaded_world
    = (Ok tt,
       printed downloaded_world
         [Processing (0 + 1) (field fields1 "title" (JStr "Untitled"));
          AlreadyDownloaded rel]).
Proof.
  apply (downloaded_record_is_skipped
           (sample_env "n" three_pages (failing_r1 ConnectionError))
           downloaded_world 0 fields1 1 (JStr "r1")).
  - reflexivity.
  - vm_compute. reflexivity.
Defined.



(** ** A saved recording is found again *)

(** X13.  Idempotence of the download.  Once [save_recording_to_json]
    has written a recording whose id is a string without [/] and whose
    start parses, the look-up of [process_recording] for this id and start
    answers true, so that the next run does not fetch it again. *)
Theorem saved_recording_is_found E w kvs id dt :
  assoc "id" kvs = Some (JStr id) →
  PyStr.contains_char "/" id = false →
  title_is_text kvs →
  (∀ p, refused E p = false) →
  parsed_start E (field kvs "start_datetime" JNull) = Some dt →
  ∃ path w' rel,
    save_recording_to_json (JObj kvs) "recordings" E w = (Ok path, w')
    ∧ already_downloaded (JStr id) (field kvs "start_datetime" JNull) E w'
      = (Ok true, printed w' [AlreadyDownloaded rel]).
Proof.
  intros Hid Hslash Htitle Hfs Hp.
  destruct (save_recording_to_json_ok E w "recordings" kvs (JStr id)
              Hid Htitle (Hfs _) (Hfs _)) as [evs Hsave].
  revert Hsave. unfold expected_directory. rewrite Hp. cbn [py_str].
  set (dir := date_partition "recordings" dt).
  set (name := id ++ "_" ++ safe_title_of kvs ++ ".json").
  intros Hsave.
  assert (Hname : PyStr.all not_slash name = true).
  { unfold name. rewrite !all_app, safe_title_no_slash.
    apply no_slash_contains in Hslash. by rewrite Hslash. }
  assert (Hdir : dir = "recordings/" ++ pretty (year dt) ++ "/"
                       ++ pad2 (month dt) ++ "/" ++ pad2 (day dt))
    by apply date_partition_shape.
  assert (Hjoin : join dir [name] = (dir ++ "/") ++ name).
  { cbn [join fold_left]. rewrite join2_plain.
    - by rewrite string_app_assoc.
    - by rewrite Hdir.
    - rewrite Hdir. rewrite <- !string_app_assoc.
      destruct (pad2_numeral (day dt)) as [Hd Hdne].
      apply endswith_app; [done|]. by apply numeral_no_slash.
    - by apply no_slash_startswith. }
  eexists _, _. 
  match type of Hsave with
  | _ = (_, ?w1) =>
      destruct (already_downloaded_found E w1 (JStr id)
                  (field kvs "start_datetime" JNull)) as [rel Hfound]
  end; [|by exists rel].
  unfold found_on_disk. rewrite Hp. cbv zeta. fold dir.
  rewrite (Hfs dir). cbn [negb andb dirs files].
  assert (path_exists_in
            (World (<[join dir [name] := Json (projection kvs (JStr id))]>
                      (files w))
               (dirs w ∪ list_to_set (dir :: ancestors dir))
               (log w ++ evs ++ [Saved (join dir [name]) "recordings"]))
            "recordings" = true) as ->.
  { unfold path_exists_in. cbn [dirs].
    rewrite (bool_decide_eq_true_2 (_ ∈ _ ∪ _)); [done|].
    apply elem_of_union_r, elem_of_list_to_set, list_elem_of_In.
    right. rewrite Hdir. cbn. left. reflexivity. }
  rewrite bool_decide_eq_true_2 by set_solver.
  cbn [andb]. apply existsb_exists. exists name. split.
  - apply list_elem_of_In. unfold entries. cbn [dirs files].
    apply list_elem_of_omap. exists (join dir [name]). split.
    + apply elem_of_elements, elem_of_union_r, elem_of_dom.
      rewrite lookup_insert_eq. by eexists.
    + unfold entry_name. rewrite Hjoin, strip_prefix_app.
      apply no_slash_contains in Hname. rewrite Hname.
      assert (String.eqb name "" = false) as ->; [|done].
      unfold name. destruct id; reflexivity.
  - unfold PyStr.startswith, name. apply prefix_app.
Qed.

Lemma saved_recording_is_found_witness :
  ∃ path w' rel,
    save_recording_to_json (JObj fields1) "recordings"
      (sample_env "n" three_pages details) empty_world
    = (Ok path, w')
    ∧ already_downloaded (JStr "r1") (field fields1 "start_datetime" JNull)
        (sample_env "n" three_pages details) w'
      = (Ok true, printed w' [AlreadyDownloaded rel]).
Proof.
  apply (saved_recording_is_found (sample_env "n" three_pages details)
           empty_world fields1 "r1" (Date 2024 3 5)).
  - reflexivity.
  - reflexivity.
  - exact I.
  - reflexivity.
  - reflexivity.
Defined.

(** ** The artifact writer, on data it cannot use *)

(** X15.  What the writer does with data it cannot use.  A detail that
    is not a JSON object raises [AttributeError] before anything is
    touched.  A title that is [None], a number or a boolean raises
    [TypeError] when it is iterated, after the directory of the recording
    has been created. *)
Theorem unusable_detail_raises E w root :
  (∀ v, (∀ kvs, v ≠ JObj kvs) →
        save_recording_to_json v root E w = (Raise AttributeError, w))
  ∧ (∀ kvs rid title,
       assoc "id" kvs = Some rid →
       assoc "title" kvs = Some title →
       not_iterable title →
       refused E (expected_directory E root (field kvs "start_datetime" JNull))
       = false →
       let dir :=
         expected_directory E root (field kvs "start_datetime" JNull) in
       ∃ evs,
         save_recording_to_json (JObj kvs) root E w
         = (Raise TypeError,
            World (files w) (dirs w ∪ list_to_set (dir :: ancestors dir))
              (log w ++ evs))).
Proof.
  split.
  - intros v Hv. unfold save_recording_to_json.
    destruct v; try (cbn [py_get]; by mnorm). by destruct (Hv kvs).
  - intros kvs rid title Hid Htitle Hbad Href dir.
    destruct (save_directory E w root (field kvs "start_datetime" JNull))
      as [evs Hd].
    exists evs. unfold save_recording_to_json.
    cbn [py_get py_getitem]. mnorm.
    fold (field kvs "start_datetime" JNull).
    erewrite bind_ok by exact Hd. fold dir.
    erewrite bind_ok by by apply makedirs_ok.
    rewrite Hid, Htitle. mnorm.
    by destruct title.
Qed.

Lemma unusable_detail_raises_witness :
  save_recording_to_json (JStr "r1") "recordings"
    (sample_env "n" three_pages details) empty_world
  = (Raise AttributeError, empty_world)
  ∧ ∃ evs,
      save_recording_to_json (JObj [("id", JStr "r1"); ("title", JNull)])
        "recordings" (sample_env "n" three_pages details) empty_world
      = (Raise TypeError,
         World ∅ (∅ ∪ list_to_set ("recordings" :: ancestors "recordings"))
           ([] ++ evs)).
Proof.
  destruct (unusable_detail_raises (sample_env "n" three_pages details)
              empty_world "recordings") as [Hobj Htitle].
  split.
  - apply Hobj. discriminate.
  - apply (Htitle [("id", JStr "r1"); ("title", JNull)] (JStr "r1") JNull);
      [reflexivity|reflexivity|exact I|reflexivity].
Defined.

(** ** Titles within ASCII *)

Lemma all_keep_chars_other f g s :
  PyStr.all g s = true → PyStr.all g (keep_chars f s) = true.
Proof.
  induction s as [|c s IH]; [done|]. cbn [PyStr.all keep_chars].
  intros [Hc Hs]%andb_true_iff. destruct (f c); [|by apply IH].
  cbn [PyStr.all]. by rewrite Hc, IH.
Qed.

Lemma all_both f g s :
  PyStr.all f s = true → PyStr.all g s = true →
  PyStr.all (λ c, f c && g c) s = true.
Proof.
  induction s as [|c s IH]; [done|]. cbn [PyStr.all].
  intros [Hf Hfs]%andb_true_iff [Hg Hgs]%andb_true_iff.
  by rewrite Hf, Hg, IH.
Qed.

(** X16.  For a title within ASCII the sanitized component is within
    [[A-Za-z0-9 _-]], and it keeps the characters of that class in their
    order: a title that is already made of them, has no white space at
    its end and at most 50 characters is its own component. *)
Theorem ascii_title_component title :
  PyStr.all is_ascii title = true →
  ∃ component,
    clean_title (JStr title) = Ok component
    ∧ PyStr.all title_class component = true
    ∧ (PyStr.all title_class title = true →
       PyStr.rstrip title = title →
       (String.length title ≤ 50)%nat →
       component = title).
Proof.
  intros Hascii. eexists. split; [apply clean_title_str|]. split.
  - apply all_take, all_rstrip.
    eapply (all_impl (λ c, safe_char c && is_ascii c)).
    + intros c [Hs Ha]%andb_true_iff.
      rewrite safe_char_class, (ascii_not_latin1 _ Ha), orb_false_r in Hs.
      exact Hs.
    + apply all_both; [apply all_keep_chars|by apply all_keep_chars_other].
  - intros Hclass Hstrip Hlen.
    assert (keep_chars safe_char title = title) as ->.
    { clear Hstrip Hlen Hascii. induction title as [|c s IH]; [done|].
      cbn [PyStr.all] in Hclass. apply andb_true_iff in Hclass as [Hc Hs].
      cbn [keep_chars]. rewrite safe_char_class, Hc. cbn [orb].
      by rewrite IH. }
    rewrite Hstrip. clear Hclass Hstrip Hascii.
    revert Hlen. generalize 50%nat. induction title as [|c s IH]; intros n.
    + by destruct n.
    + cbn [String.length]. destruct n as [|n]; [lia|]. intros Hn.
      cbn [PyStr.take]. f_equal. apply IH. lia.
Qed.

Lemma ascii_title_component_witness :
  ∃ component,
    clean_title (JStr "Weekly sync - Q1_2024") = Ok component
    ∧ PyStr.all title_class component = true
    ∧ component = "Weekly sync - Q1_2024".
Proof.
  destruct (ascii_title_component "Weekly sync - Q1_2024" eq_refl)
    as (component & Hclean & Hclass & Hsame).
  exists component. split; [exact Hclean|]. split; [exact Hclass|].
  apply Hsame; [reflexivity|reflexivity|cbn; lia].
Defined.

(** ** [main] around the run *)

Lemma main_start E w fuel :
  has_token E →
  main fuel E w
  = bind load_cursor_state
      (λ cursor_state,
        let* start :=
          if truthy cursor_state then
            let* timestamp := lift (py_getitem cursor_state "timestamp") in
            let* _ := print (FoundSavedState timestamp) in
            let* count := lift (py_getitem cursor_state "processed_count") in
            let* _ := print (AlreadyProcessed count) in
            let* resume := resume_requested in
            if resume then
              let* resume_cursor := lift (py_getitem cursor_state "cursor") in
              let* starting_count :=
                lift (py_getitem cursor_state "processed_count") in
              ret (resume_cursor, starting_count)
            else
              let* present := path_exists cursor_state_file in
              let* _ := if present then remove cursor_state_file else ret tt in
              ret (JNull, JNum 0)
          else ret (JNull, JNum 0) in
        let '(resume_cursor, starting_count) := start in
        sync_all fuel starting_count resume_cursor)
      E (printed w [FetchingAll]).
Proof.
  unfold has_token, main. mrun.
  destruct (api_token E) as [[|]|]; [done| |done]. intros _. by mrun.
Qed.

(** X17.  A checkpoint file that parses but is not the object [main]
    expects is not treated as absent: a JSON list, string or number, or
    an object without ["timestamp"], makes [main] raise ([TypeError] or
    [KeyError]) before the operator is asked and before any listing; the
    file stays. *)
Theorem malformed_checkpoint_aborts_main fuel E w v e :
  has_token E →
  files w !! cursor_state_file = Some (Json v) →
  refused E cursor_state_file = false →
  truthy v = true →
  py_getitem v "timestamp" = Raise e →
  main fuel E w = (Raise e, printed w [FetchingAll]).
Proof.
  intros Htok Hf Href Ht Hts. rewrite main_start by done.
  erewrite bind_ok by (apply load_cursor_state_json; [exact Hf|exact Href]).
  rewrite Ht, Hts. by mnorm.
Qed.

Lemma malformed_checkpoint_aborts_main_witness :
  main 1 (sample_env "y" three_pages details) list_checkpoint_world
  = (Raise TypeError, printed list_checkpoint_world [FetchingAll]).
Proof.
  apply (malformed_checkpoint_aborts_main 1
           (sample_env "y" three_pages details) list_checkpoint_world
           (JArr [JNum 1]) TypeError).
  - exact I.
  - reflexivity.
  - reflexivity.
  - reflexivity.
  - reflexivity.
Defined.

(** X18.  A checkpoint file whose content is falsy (the empty object,
    [null], 0, an empty string or list) counts as no saved state: the
    operator is not asked and the run starts from the first page with the
    count 0. *)
Theorem falsy_checkpoint_is_ignored fuel E w v :
  has_token E →
  files w !! cursor_state_file = Some (Json v) →
  refused E cursor_state_file = false →
  truthy v = false →
  main fuel E w = sync_all fuel (JNum 0) JNull E (printed w [FetchingAll]).
Proof.
  intros Htok Hf Href Ht. rewrite main_start by done.
  erewrite bind_ok by (apply load_cursor_state_json; [exact Hf|exact Href]).
  rewrite Ht. by mnorm.
Qed.

Lemma falsy_checkpoint_is_ignored_witness :
  main 1 (sample_env "y" three_pages details) empty_checkpoint_world
  = sync_all 1 (JNum 0) JNull (sample_env "y" three_pages details)
      (printed empty_checkpoint_world [FetchingAll]).
Proof.
  apply (falsy_checkpoint_is_ignored 1 (sample_env "y" three_pages details)
           empty_checkpoint_world (JObj [])).
  - exact I.
  - reflexivity.
  - reflexivity.
  - reflexivity.
Defined.

(** X19.  With a saved state that has its three fields, the answer of
    the operator decides.  After [y] (in either case, white space around
    it dropped) the run starts at the saved cursor, and the saved count
    is the offset of the indices printed.  After any other answer the
    checkpoint file is removed and the run starts from the first page
    with the count 0. *)
Theorem resume_decision fuel E w kvs timestamp count cursor :
  has_token E →
  files w !! cursor_state_file = Some (Json (JObj kvs)) →
  refused E cursor_state_file = false →
  assoc "timestamp" kvs = Some timestamp →
  assoc "processed_count" kvs = Some count →
  assoc "cursor" kvs = Some cursor →
  let asked :=
    [FetchingAll; FoundSavedState timestamp; AlreadyProcessed count; Prompt] in
  main fuel E w
  = if String.eqb (PyStr.strip (PyStr.lower (answer E))) "y"
    then sync_all fuel count cursor E (printed w asked)
    else sync_all fuel (JNum 0) JNull E
           (World (delete cursor_state_file (files w)) (dirs w)
              (log w ++ asked)).
Proof.
  intros Htok Hf Href Hts Hpc Hcur asked. rewrite main_start by done.
  unfold printed.
  erewrite bind_ok by (apply load_cursor_state_json; [exact Hf|exact Href]).
  assert (truthy (JObj kvs) = true) as -> by by destruct kvs.
  cbn [py_getitem]. rewrite Hts, Hpc, Hcur.
  unfold resume_requested. mnorm.
  destruct (String.eqb (PyStr.strip (PyStr.lower (answer E))) "y").
  - mnorm. unfold asked. by rewrite <- !app_assoc.
  - mnorm.
    assert (path_exists_in
              (World (files w) (dirs w)
                 ((((log w ++ [FetchingAll]) ++ [FoundSavedState timestamp])
                   ++ [AlreadyProcessed count]) ++ [Prompt]))
              cursor_state_file = true) as ->.
    { unfold path_exists_in. cbn [files dirs].
      rewrite (bool_decide_eq_true_2 (_ ∈ dom _)).
      - apply orb_true_r.
      - apply elem_of_dom. by eexists. }
    unfold remove at 1. unfold bind at 1. cbn [files dirs log].
    rewrite Href, Hf. mnorm. unfold asked. by rewrite <- !app_assoc.
Qed.

Lemma resume_decision_witness :
  let asked :=
    [FetchingAll; FoundSavedState (JStr "2024-03-31T08:00:00");
     AlreadyProcessed (JNum 5); Prompt] in
  main 1 (sample_env " Y " three_pages details4) interrupted_world
  = if String.eqb
         (PyStr.strip
            (PyStr.lower (answer (sample_env " Y " three_pages details4))))
         "y"
    then sync_all 1 (JNum 5) (JStr "c1")
           (sample_env " Y " three_pages details4)
           (printed interrupted_world asked)
    else sync_all 1 (JNum 0) JNull (sample_env " Y " three_pages details4)
           (World (delete cursor_state_file (files interrupted_world))
              (dirs interrupted_world) (log interrupted_world ++ asked)).
Proof.
  apply (resume_decision 1 (sample_env " Y " three_pages details4)
           interrupted_world
           [("cursor", JStr "c1"); ("processed_count", JNum 5);
            ("timestamp", JStr "2024-03-31T08:00:00")]).
  - exact I.
  - reflexivity.
  - reflexivity.
  - reflexivity.
  - reflexivity.
  - reflexivity.
Defined.

(** ** How a run ends *)

Lemma ends_clean_bind {A} (m : M A) (k : A → M unit) E w :
  (∀ a w1, ends_clean (k a E w1)) → ends_clean (bind m k E w).
Proof.
  intros Hk. unfold bind. destruct (m E w) as [[a|e|] w1]; [apply Hk|..];
    by intros [=].
Qed.

Lemma ends_clean_sync_all fuel n c E w : ends_clean (sync_all fuel n c E w).
Proof.
  unfold ends_clean.
  destruct (sync_all fuel n c E w) as [o w'] eqn:Hs. cbn [fst snd].
  intros ->. revert Hs. unfold sync_all, try_except.
  bind_case Hp; [|mnorm; discriminate|discriminate].
  mnorm. destruct (path_exists_in _ cursor_state_file) eqn:Hex.
  - unfold remove at 1. unfold bind at 1. cbn [files dirs log].
    destruct (refused E cursor_state_file); [mnorm; discriminate|].
    destruct (files w0 !! cursor_state_file); [|mnorm; discriminate].
    mnorm. intros [= <-]. cbn [files].
    apply not_elem_of_dom, lookup_delete_eq.
  - intros [= <-]. cbn [files]. unfold path_exists_in in Hex.
    cbn [files dirs] in Hex. apply orb_false_iff in Hex as [_ Hex].
    by apply bool_decide_eq_false_1 in Hex.
Qed.

(** X20.  When [main] returns normally there is no checkpoint file on
    disk, whatever the listing returned: the state saved during the run
    is removed at its end. *)
Theorem normal_end_leaves_no_checkpoint fuel E w :
  fst (main fuel E w) = Ok tt →
  cursor_state_file ∉ dom (files (snd (main fuel E w))).
Proof.
  change (ends_clean (main fuel E w)). unfold main.
  apply ends_clean_bind. intros E0 w0.
  destruct (api_token E0) as [[|]|]; [discriminate| |discriminate].
  repeat (apply ends_clean_bind; intros ? ?).
  match goal with
  | |- ends_clean ((let '(_, _) := ?p in _) _ _) => destruct p
  end.
  apply ends_clean_sync_all.
Qed.

Lemma normal_end_leaves_no_checkpoint_witness :
  cursor_state_file
  ∉ dom (files (snd (main 1 (sample_env "y" three_pages details4)
                       interrupted_world))).
Proof.
  apply (normal_end_leaves_no_checkpoint 1
           (sample_env "y" three_pages details4) interrupted_world).
  vm_compute. reflexivity.
Defined.

(** ** What [main] removes *)

Lemma grows_but_refl p w : grows_but p w w.
Proof. split; [|done]. by intros x [Hx _]%elem_of_difference. Qed.

Lemma grows_but_trans p w1 w2 w3 :
  grows_but p w1 w2 → grows_but p w2 w3 → grows_but p w1 w3.
Proof.
  intros [H1 H2] [H3 H4]. split; [|by etrans].
  intros x [Hx Hne]%elem_of_difference.
  apply H3, elem_of_difference. split; [|done].
  by apply H1, elem_of_difference.
Qed.

Lemma keeps_but_keeps {A} p (m : M A) : keeps m → keeps_but p m.
Proof.
  intros H E w. destruct (H E w) as [H1 H2]. split; [|done].
  intros x [Hx _]%elem_of_difference. by apply H1.
Qed.

Lemma keeps_but_bind {A B} p (m : M A) (k : A → M B) :
  keeps_but p m → (∀ a, keeps_but p (k a)) → keeps_but p (bind m k).
Proof.
  intros Hm Hk E w. unfold bind. specialize (Hm E w).
  destruct (m E w) as [[a|e|] w1]; cbn in *; [|done..].
  eapply grows_but_trans; [exact Hm|apply Hk].
Qed.

Lemma keeps_but_try {A} p (m : M A) h :
  keeps_but p m → (∀ e, keeps_but p (h e)) → keeps_but p (try_except m h).
Proof.
  intros Hm Hh E w. unfold try_except. specialize (Hm E w).
  destruct (m E w) as [[a|e|] w1]; cbn in *; [done| |done].
  eapply grows_but_trans; [exact Hm|apply Hh].
Qed.

Lemma keeps_but_remove p : keeps_but p (remove p).
Proof.
  intros E w. unfold remove. destruct (refused E p); [apply grows_but_refl|].
  destruct (files w !! p); [|apply grows_but_refl].
  split; cbn; [|done]. rewrite dom_delete_L. set_solver.
Qed.

Lemma keeps_resume_requested : keeps resume_requested.
Proof. unfold resume_requested. keeps_tac. Qed.

Ltac keeps_but_step :=
  match goal with
  | |- keeps_but _ (bind _ _) => apply keeps_but_bind; [|intros ?]
  | |- keeps_but _ (try_except _ _) => apply keeps_but_try; [|intros ?]
  | |- keeps_but ?p (remove ?p) => apply keeps_but_remove
  | |- keeps_but _ (if ?b then _ else _) => destruct b
  | |- keeps_but _ (match ?x with _ => _ end) => destruct x
  | |- keeps_but _ _ =>
      apply keeps_but_keeps;
      solve [auto using keeps_resume_requested, keeps_process_all_recordings,
               keeps_process_recording with keeps]
  end.

(** X21.  Of what is on disk, [main] removes the checkpoint file and
    nothing else: every other file and every directory present at the
    start is present at the end, however the run ends. *)
Theorem main_removes_only_the_checkpoint fuel E w :
  dom (files w) ∖ {[cursor_state_file]} ⊆ dom (files (snd (main fuel E w)))
  ∧ dirs w ⊆ dirs (snd (main fuel E w)).
Proof.
  enough (keeps_but cursor_state_file (main fuel)) as H by apply H.
  unfold main, sync_all. repeat keeps_but_step.
Qed.

(** ** Termination *)

Lemma bind_ext {A B} (m : M A) (k k' : A → M B) E w :
  (∀ a w1, k a E w1 = k' a E w1) → bind m k E w = bind m k' E w.
Proof. intros H. unfold bind. by destruct (m E w) as [[a|e|] w1]. Qed.

Lemma sync_all_fuel fuel n c E w :
  sync_all (S fuel) n c E w = sync_all 1 n c E w.
Proof.
  unfold sync_all, try_except, bind.
  by rewrite process_all_recordings_fuel.
Qed.

Lemma halts_sync_all fuel n c : halts (sync_all (S fuel) n c).
Proof.
  unfold sync_all.
  apply halts_try; [|intros e; halts_tac].
  apply halts_bind; [|intros total; halts_tac].
  apply halts_process_all_recordings. intros r i. apply halts_process_recording.
Qed.

Lemma halts_resume_requested : halts resume_requested.
Proof. unfold resume_requested. halts_tac. Qed.

(** X22.  The run ends: with one unit of fuel or more [main] returns or
    raises, it never runs out of fuel, and the amount of fuel beyond one
    has no effect.  The [while True] of [process_all_recordings] takes a
    single turn. *)
Theorem main_terminates fuel E w :
  fst (main (S fuel) E w) ≠ Timeout
  ∧ main (S fuel) E w = main 1 E w.
Proof.
  split.
  - enough (halts (main (S fuel))) as H by apply H.
    unfold main. pose proof (halts_sync_all fuel) as Hsync.
    pose proof halts_resume_requested as Hask.
    halts_tac; auto with halts.
  - unfold main. apply bind_ext. intros E0 w0.
    destruct (api_token E0) as [[|]|]; [done| |done].
    repeat (apply bind_ext; intros ? ?).
    match goal with
    | |- (let '(_, _) := ?p in _) _ _ = _ => destruct p
    end.
    apply sync_all_fuel.
Qed.
